(** * cryptfile: password-based file encryption (FlareXes/obfile)

    A shallow embedding of [cryptfile.py] and of the earlier
    [obsfile/security.py].  The program is glue around four libraries
    (PyCryptodome's scrypt and AES-GCM, [pickle], [getpass]); the glue is
    embedded definition by definition, the libraries are the fields of the
    class [PyLib], and what a proof needs from a library is a premise of the
    theorem that uses it.  Effects (files, random bytes, the terminal, calls
    of the key-derivation function) are threaded through an explicit
    [world]; an exception leaves the effects that happened before it. *)

From Stdlib Require Import ZArith Lia List Ascii String.
From Stdlib.Strings Require Import Byte.
From stdpp Require Import base option list strings gmap.

Local Open Scope string_scope.
Local Set Warnings "-register-all".

(** ** Python values, exceptions and results *)

(** The dynamically typed values that reach the program: what [pickle.load]
    may hand back and what a dataclass field may hold. *)
Inductive pyval : Type :=
| PyNone
| PyInt (z : Z)
| PyStr (s : string)
| PyBytes (b : list byte)
| PyDict (items : list (pyval * pyval)).

(** Exceptions that the program or its libraries raise. *)
Inductive exn : Type :=
| TypeError
| ValueError (msg : string)
| KeyError (key : string)
| FileNotFoundError (path : string)
| EOFError
| UnpicklingError
| SystemExit (code : Z).

Inductive result (A : Type) : Type :=
| Ok (a : A)
| Raise (e : exn).
Arguments Ok {A} a.
Arguments Raise {A} e.

(** PyCryptodome reports a failed tag verification as
    [ValueError("MAC check failed")]; the program never catches or renames
    it, so this is the integrity error a caller observes. *)
Definition IntegrityError : exn := ValueError "MAC check failed".

(** ** The world: files, randomness, terminal, and a log of events *)

Inductive event : Type :=
| EvPrompt (prompt : string)
| EvPrint (text : string)
| EvOpen (path mode : string)
| EvScrypt (password salt : pyval) (key_len N r p : Z).

Record world : Type := World {
  fs : gmap string (list byte);   (* path |-> file content *)
  tape : nat -> byte;             (* the random bytes the OS will deliver *)
  pos : nat;                      (* how many of them were consumed *)
  tty : list string;              (* lines the user is going to type *)
  log : list event                (* what happened so far, oldest first *)
}.

(** The prompts shown to the user, in order. *)
Definition prompts (l : list event) : list string :=
  flat_map (fun e => match e with EvPrompt p => [p] | _ => [] end) l.

(** The texts printed, in order. *)
Definition prints (l : list event) : list string :=
  flat_map (fun e => match e with EvPrint t => [t] | _ => [] end) l.

Definition set_fs (w : world) (m : gmap string (list byte)) : world :=
  World m (tape w) (pos w) (tty w) (log w).
Definition set_pos (w : world) (n : nat) : world :=
  World (fs w) (tape w) n (tty w) (log w).
Definition set_tty (w : world) (l : list string) : world :=
  World (fs w) (tape w) (pos w) l (log w).
Definition emit (w : world) (e : event) : world :=
  World (fs w) (tape w) (pos w) (tty w) (log w ++ [e]).

(** A computation reads and updates the world and returns or raises. *)
Definition py (A : Type) : Type := world -> result A * world.

Definition py_ret {A} (a : A) : py A := fun w => (Ok a, w).
Definition py_raise {A} (e : exn) : py A := fun w => (Raise e, w).
Definition py_bind {A B} (m : py A) (k : A -> py B) : py B :=
  fun w => match m w with
           | (Ok a, w') => k a w'
           | (Raise e, w') => (Raise e, w')
           end.
Definition py_lift {A} (r : result A) : py A := fun w => (r, w).

Declare Scope py_scope.
Delimit Scope py_scope with py.
Notation "x <~ m ;; k" := (py_bind m (fun x => k))
  (at level 100, m at next level, right associativity) : py_scope.
Notation "m ;;; k" := (py_bind m (fun _ => k))
  (at level 100, right associativity) : py_scope.
Local Open Scope py_scope.

(** [for x in xs: body(x)]; the first exception ends the loop. *)
Fixpoint py_for {A} (xs : list A) (body : A -> py unit) : py unit :=
  match xs with
  | [] => py_ret tt
  | x :: xs' => body x ;;; py_for xs' body
  end.

(** ** Built-ins and the standard library *)

(** [print(text, end=...)]: [text] already carries its terminator. *)
Definition print (text : string) : py unit :=
  fun w => (Ok tt, emit w (EvPrint text)).

(** [sys.exit(code)] *)
Definition sys_exit {A} (code : Z) : py A := py_raise (SystemExit code).

(** [open(path, "rb")] followed by [f.read()] *)
Definition read_file (path : string) : py (list byte) :=
  fun w => let w' := emit w (EvOpen path "rb") in
           match fs w !! path with
           | Some content => (Ok content, w')
           | None => (Raise (FileNotFoundError path), w')
           end.

(** [open(path, "wb")] followed by [f.write(content)]: creates or truncates. *)
Definition write_file (path : string) (content : list byte) : py unit :=
  fun w => (Ok tt, set_fs (emit w (EvOpen path "wb")) (<[path := content]> (fs w))).

(** [d[key]] for a string key: only a dict can be subscripted by one. *)
Definition str_key (name : string) (kv : pyval * pyval) : bool :=
  match fst kv with
  | PyStr s => String.eqb s name
  | _ => false
  end.

Definition dict_get (name : string) (items : list (pyval * pyval)) : option pyval :=
  match List.find (str_key name) items with
  | Some kv => Some (snd kv)
  | None => None
  end.

Definition getitem (d : pyval) (name : string) : result pyval :=
  match d with
  | PyDict items =>
      match dict_get name items with
      | Some v => Ok v
      | None => Raise (KeyError name)
      end
  | _ => Raise TypeError
  end.

(** [Cryptodome.Random.get_random_bytes(n)]: the next [n] bytes of the tape. *)
Definition get_random_bytes (n : nat) : py (list byte) :=
  fun w => (Ok (map (tape w) (seq (pos w) n)), set_pos w (pos w + n)).

(** [getpass.getpass(prompt)]: one line from the terminal, not echoed. *)
Definition getpass_getpass (prompt : string) : py string :=
  fun w => let w' := emit w (EvPrompt prompt) in
           match tty w with
           | line :: rest => (Ok line, set_tty w' rest)
           | [] => (Raise EOFError, w')
           end.

(** [s.endswith(suffix)] and [s[:-n]] on strings. *)
Definition endswith (s suffix : string) : bool :=
  let n := String.length s in
  let m := String.length suffix in
  (m <=? n)%nat && String.eqb (substring (n - m) m s) suffix.

Definition drop_last (n : nat) (s : string) : string :=
  substring 0 (String.length s - n) s.

(** [sub in s] and [s.split(sep)[0]] for a non-empty [sep]: the text before
    the first occurrence of [sep], or all of [s] when there is none. *)
Definition contains (sub s : string) : bool :=
  match index 0 sub s with
  | Some _ => true
  | None => false
  end.

Definition split_head (sep s : string) : string :=
  match index 0 sep s with
  | Some i => substring 0 i s
  | None => s
  end.

(** [os.path.basename(p)]: what follows the last slash. *)
Fixpoint has_slash (p : string) : bool :=
  match p with
  | EmptyString => false
  | String c rest => Ascii.eqb c "/" || has_slash rest
  end.

Fixpoint basename (p : string) : string :=
  match p with
  | EmptyString => EmptyString
  | String c rest =>
      if has_slash rest then basename rest
      else if Ascii.eqb c "/" then rest else p
  end.

(** [os.remove(path)] *)
Definition os_remove (path : string) : py unit :=
  fun w => match fs w !! path with
           | Some _ => (Ok tt, set_fs w (delete path (fs w)))
           | None => (Raise (FileNotFoundError path), w)
           end.

(** A loop that builds a value: [for x in xs: acc = body(acc, x)]. *)
Fixpoint py_fold {A S} (xs : list A) (acc : S) (body : S -> A -> py S) : py S :=
  match xs with
  | [] => py_ret acc
  | x :: xs' => acc' <~ body acc x ;; py_fold xs' acc' body
  end.

(** The scrypt calls made so far. *)
Definition scrypt_calls (l : list event) : nat :=
  length (List.filter
            (fun e => match e with EvScrypt _ _ _ _ _ _ => true | _ => false end) l).

Definition CR : string := String "013" EmptyString.
Definition LF : string := String "010" EmptyString.
Definition TAB : string := String "009" EmptyString.

(** ** The libraries *)

(** What the program calls and does not define.  The operations have no
    body here: each theorem names the library facts it relies on. *)
Class PyLib : Type := {
  (** [str(x)] *)
  py_str : pyval -> string;
  (** [s.encode("utf-8")] *)
  encode_utf8 : string -> list byte;
  (** [SHA256Hash(data).hexdigest()] *)
  SHA256_hexdigest : list byte -> string;
  (** [scrypt(password, salt, key_len, N, r, p)] *)
  scrypt_kdf : pyval -> pyval -> Z -> Z -> Z -> Z -> result (list byte);
  (** [AES.new(key, AES.MODE_GCM, nonce).encrypt_and_digest(data)] *)
  AES_GCM_encrypt_and_digest :
    list byte -> pyval -> list byte -> result (list byte * list byte);
  (** what [AES.new(key, AES.MODE_GCM, nonce).decrypt_and_verify(ciphertext, tag)]
      returns or raises for a given nonce; the random bytes the call draws
      on its way are accounted for in [decrypt_and_verify] below *)
  AES_GCM_decrypt_and_verify :
    list byte -> pyval -> pyval -> pyval -> result (list byte);
  (** [pickle.dumps(obj, -1)] and [pickle.loads(data)] *)
  pickle_dumps : pyval -> list byte;
  pickle_loads : list byte -> result pyval;
  (** the path that [open(name, ...)] opens for a file name [name] *)
  os_fspath : pyval -> result string
}.

(** [scrypt(...)] as the program calls it: the call is logged. *)
Definition scrypt `{PyLib} (password salt : pyval) (key_len N r p : Z)
  : py (list byte) :=
  fun w => (scrypt_kdf password salt key_len N r p,
            emit w (EvScrypt password salt key_len N r p)).

(** A GCM cipher object: the key and the nonce it was created with. *)
Record GcmCipher : Type := { cipher_key : list byte; cipher_nonce : pyval }.

(** [AES.new(key, AES.MODE_GCM)] draws a 16-byte nonce of its own, and so
    does [AES.new(key, AES.MODE_GCM, nonce)] when [nonce] is [None]: the
    library tests [nonce is None] before anything else.  Any other [nonce]
    is kept as it is; what the library objects to in a key or a nonce is
    part of the outcome of the operation that follows. *)
Definition AES_new (key : list byte) (nonce : option pyval) : py GcmCipher :=
  match nonce with
  | Some PyNone | None =>
      n <~ get_random_bytes 16 ;;
      py_ret {| cipher_key := key; cipher_nonce := PyBytes n |}
  | Some n => py_ret {| cipher_key := key; cipher_nonce := n |}
  end.

Definition encrypt_and_digest `{PyLib} (cipher : GcmCipher) (data : list byte)
  : py (list byte * list byte) :=
  py_lift (AES_GCM_encrypt_and_digest (cipher_key cipher) (cipher_nonce cipher) data).

(** The key sizes of AES. *)
Definition aes_key_size (key : list byte) : bool :=
  let n := length key in
  (n =? 16)%nat || (n =? 24)%nat || (n =? 32)%nat.

(** [cipher.decrypt_and_verify(ciphertext, tag)] is [cipher.decrypt]
    followed by [cipher.verify], and [verify] compares the two tags under a
    16-byte secret that it takes from [get_random_bytes].  The comparison is
    reached when the cipher object exists (a key of an AES size, a nonce
    that is a non-empty bytes value) and [decrypt] has taken the ciphertext
    (a bytes value); the secret is then drawn whether or not the tags
    agree. *)
Definition reaches_verify (cipher : GcmCipher) (ciphertext : pyval) : bool :=
  match cipher_nonce cipher, ciphertext with
  | PyBytes (_ :: _), PyBytes _ => aes_key_size (cipher_key cipher)
  | _, _ => false
  end.

Definition decrypt_and_verify `{PyLib} (cipher : GcmCipher) (ciphertext tag : pyval)
  : py (list byte) :=
  (if reaches_verify cipher ciphertext
   then secret <~ get_random_bytes 16 ;; py_ret tt
   else py_ret tt) ;;;
  py_lift (AES_GCM_decrypt_and_verify (cipher_key cipher) (cipher_nonce cipher)
             ciphertext tag).

(** What [AES.new(key, AES.MODE_GCM, nonce)] followed by
    [decrypt_and_verify(ciphertext, tag)] takes from the random source in
    the world [w]: the nonce of the cipher object, and the number of bytes
    drawn. *)
Definition cipher_nonce_in (w : world) (nonce : pyval) : pyval :=
  match nonce with
  | PyNone => PyBytes (map (tape w) (seq (pos w) 16))
  | _ => nonce
  end.

Definition opening_draws (w : world) (key : list byte) (nonce ciphertext : pyval)
  : nat :=
  (match nonce with PyNone => 16 | _ => 0 end)
  + (if reaches_verify {| cipher_key := key; cipher_nonce := cipher_nonce_in w nonce |}
          ciphertext
     then 16 else 0).

(** What the directory mode and the command line take from [shutil], [os]
    and the set type. *)
Class PyOs : Type := {
  (** the order in which a set is iterated, given its elements in the
      order of insertion *)
  set_iter : list string -> list string;
  (** [repr] of a set of strings, as an f-string shows it *)
  set_repr : list string -> string;
  (** [shutil.make_archive(base_name, format, root_dir)] *)
  make_archive : string -> string -> string -> py string;
  (** [shutil.unpack_archive(filename, extract_dir=...)] *)
  unpack_archive : string -> string -> py unit;
  (** [shutil.rmtree(path, ignore_errors=False)] *)
  rmtree : string -> py unit
}.

(** ** cryptfile.py *)

Module Template.

(** [@dataclass class CipherConfig]; fields are not type-checked at run
    time, so each holds an arbitrary value. *)
Record CipherConfig : Type := {
  ciphertext : pyval;
  salt : pyval;
  tag : pyval;
  nonce : pyval;
  filename : pyval
}.

(** [CipherConfig(ciphertext, salt, tag, nonce)]: [filename] defaults to
    the empty string. *)
Definition new (ciphertext salt tag nonce : pyval) : CipherConfig :=
  {| ciphertext := ciphertext; salt := salt; tag := tag; nonce := nonce;
     filename := PyStr "" |}.

(** [cc.filename = file] *)
Definition set_filename (cc : CipherConfig) (file : pyval) : CipherConfig :=
  {| ciphertext := ciphertext cc; salt := salt cc; tag := tag cc;
     nonce := nonce cc; filename := file |}.

(** [cc.__dict__]: the fields in declaration order. *)
Definition __dict__ (cc : CipherConfig) : pyval :=
  PyDict [ (PyStr "ciphertext", ciphertext cc); (PyStr "salt", salt cc);
           (PyStr "tag", tag cc); (PyStr "nonce", nonce cc);
           (PyStr "filename", filename cc) ].

Definition field_names : list string :=
  ["ciphertext"; "salt"; "tag"; "nonce"; "filename"].

(** A keyword of a call must be a string naming a parameter. *)
Definition keyword_ok (kv : pyval * pyval) : bool :=
  match fst kv with
  | PyStr s => existsb (String.eqb s) field_names
  | _ => false
  end.

(** The call of [CipherConfig] with the entries of [data_dict] as its
    keyword arguments: [data_dict] must be a mapping whose keys
    are parameter names; the four parameters without a default must be
    there.  Anything else is a [TypeError].  The values are taken as they
    are. *)
Definition from_kwargs (data_dict : pyval) : result CipherConfig :=
  match data_dict with
  | PyDict items =>
      if forallb keyword_ok items then
        match dict_get "ciphertext" items, dict_get "salt" items,
              dict_get "tag" items, dict_get "nonce" items with
        | Some c, Some s, Some t, Some n =>
            Ok {| ciphertext := c; salt := s; tag := t; nonce := n;
                  filename := match dict_get "filename" items with
                              | Some f => f
                              | None => PyStr ""
                              end |}
        | _, _, _, _ => Raise TypeError
        end
      else Raise TypeError
  | _ => Raise TypeError
  end.

End Template.

Module Utils.
Import Template.

Section WithLib.
Context `{PyLib}.

(** [astuple(cc)] *)
Definition attrs (cc : CipherConfig) : pyval * pyval * pyval * pyval * pyval :=
  (ciphertext cc, salt cc, tag cc, nonce cc, filename cc).

Definition _rename (file : string) : py string :=
  if endswith file ".enc" then
    py_ret (drop_last 4 file)
  else
    print ("[*] It seems you have changed filename after encryption." ++ LF) ;;;
    print ("[*] Decrypted file will be saved as `" ++ (file ++ ".cryptfile")
           ++ "`." ++ LF) ;;;
    py_ret (file ++ ".cryptfile").

Definition save_cc (data : CipherConfig) (file : string) : py unit :=
  write_file (file ++ ".enc") (pickle_dumps (__dict__ data)).

Definition save_file (data : list byte) (filename : pyval) : py unit :=
  path <~ py_lift (os_fspath filename) ;;
  write_file path data.

(** What [open_file] returns depends on [pickled]. *)
Definition opened (pickled : bool) : Type :=
  if pickled then CipherConfig else list byte.

Definition open_file (file : string) (pickled : bool) : py (opened pickled) :=
  f <~ read_file file ;;
  match pickled return py (opened pickled) with
  | true =>
      data_dict <~ py_lift (pickle_loads f) ;;
      py_lift (from_kwargs data_dict)
  | false => py_ret f
  end.

End WithLib.
Section WithOs.
Context `{PyOs}.

Definition archive_dir (directory : string) (compress : bool) : py string :=
  if compress then
    let archive_filename := basename directory in
    output_path <~ make_archive archive_filename "zip" directory ;;
    py_ret output_path
  else
    let archive_filename := basename directory in
    output_path <~ make_archive archive_filename "tar" directory ;;
    py_ret output_path.

Definition unarchive_dir (archive_file : string) : py unit :=
  let archive_filename :=
    if contains "tar" archive_file then split_head ".tar" archive_file
    else split_head ".zip" archive_file in
  unpack_archive archive_file archive_filename.

End WithOs.
End Utils.

Module Security.
Import Template.

Record Security : Type := {
  mp : list byte;
  cost_factor : Z;
  rounds : Z;
  parallel_factor : Z;
  key_length : Z
}.

Definition __init__ (master_password_hash : list byte) : Security :=
  {| mp := master_password_hash;
     cost_factor := 2 ^ 20;
     rounds := 8;
     parallel_factor := 1;
     key_length := 32 |}.

Section WithLib.
Context `{PyLib}.

Definition getpass (no_check : bool) : py (list byte) :=
  w1 <~ getpass_getpass "Enter Password: " ;;
  let p1 := SHA256_hexdigest (encode_utf8 w1) in
  if no_check then py_ret (encode_utf8 p1)
  else
    w2 <~ getpass_getpass "Re-enter Password: " ;;
    let p2 := SHA256_hexdigest (encode_utf8 w2) in
    if String.eqb p1 p2 then py_ret (encode_utf8 p1)
    else
      print (">>> Incorrect Password ! <<<" ++ LF) ;;;
      sys_exit 1.

Definition _kdf_scrypt (self : Security) (_salt : pyval) : py (list byte) :=
  scrypt (PyStr (py_str (PyBytes (mp self)))) (PyStr (py_str _salt))
         (key_length self) (cost_factor self) (rounds self)
         (parallel_factor self).

Definition encrypt (self : Security) (data : list byte) : py CipherConfig :=
  _salt <~ get_random_bytes 32 ;;
  key <~ _kdf_scrypt self (PyBytes _salt) ;;
  cipher <~ AES_new key None ;;
  ct <~ encrypt_and_digest cipher data ;;
  py_ret (Template.new (PyBytes (fst ct)) (PyBytes _salt) (PyBytes (snd ct))
            (cipher_nonce cipher)).

Definition decrypt (self : Security) (cc : CipherConfig) : py (list byte) :=
  let '(ciphertext, _salt, tag, nonce, _) := Utils.attrs cc in
  key <~ _kdf_scrypt self _salt ;;
  cipher <~ AES_new key (Some nonce) ;;
  data <~ decrypt_and_verify cipher ciphertext tag ;;
  py_ret data.

End WithLib.
End Security.

Module Cryptfile.
Import Template.

(** [files] and [directories] are Python sets; the list is the order in
    which the set happens to be iterated. *)
Record Cryptfile : Type := {
  files : list string;
  directories : list string
}.

Section WithLib.
Context `{PyLib}.

(** The body of the loop of [encrypt_file]. *)
Definition encrypt_file_body (password_hash : list byte) (file : string)
  : py unit :=
  data <~ Utils.open_file file false ;;
  print (LF ++ "Encrypting [ " ++ file ++ " ]" ++ CR) ;;;
  cc <~ Security.encrypt (Security.__init__ password_hash) data ;;
  let cc := set_filename cc (PyStr file) in
  Utils.save_cc cc file ;;;
  print ("Encrypting [ " ++ file ++ " ] " ++ TAB ++ " [+] Completed" ++ LF).

Definition encrypt_file (self : Cryptfile) : py unit :=
  password_hash <~ Security.getpass false ;;
  py_for (files self) (encrypt_file_body password_hash).

(** The body of the loop of [decrypt_file]. *)
Definition decrypt_file_body (password_hash : list byte) (file : string)
  : py unit :=
  cc <~ Utils.open_file file true ;;
  print (LF ++ "Decrypting [ " ++ file ++ " ]" ++ CR) ;;;
  data <~ Security.decrypt (Security.__init__ password_hash) cc ;;
  Utils.save_file data (filename cc) ;;;
  print ("Decrypting [ " ++ file ++ " ] " ++ TAB ++ " [+] Completed" ++ LF).

Definition decrypt_file (self : Cryptfile) : py unit :=
  password_hash <~ Security.getpass true ;;
  py_for (files self) (decrypt_file_body password_hash).

(** The two directions of a batch, to state what they share. *)
Inductive direction : Type := Encrypting | Decrypting.

Definition no_check (d : direction) : bool :=
  match d with Encrypting => false | Decrypting => true end.

Definition body (d : direction) : list byte -> string -> py unit :=
  match d with
  | Encrypting => encrypt_file_body
  | Decrypting => decrypt_file_body
  end.

Definition run (d : direction) (self : Cryptfile) : py unit :=
  match d with
  | Encrypting => encrypt_file self
  | Decrypting => decrypt_file self
  end.

End WithLib.
Section WithOs.
Context `{PyLib} `{PyOs}.

(** The first loop of [encrypt_dir]: the archive paths in the order in
    which they were added to [archives_location]. *)
Definition archive_all (self : Cryptfile) (compress : bool) : py (list string) :=
  py_fold (directories self) []
    (fun archives_location directory =>
       output_path <~ Utils.archive_dir directory compress ;;
       py_ret (archives_location ++ [output_path])%list).

Definition encrypt_dir (self : Cryptfile) (compress : bool) : py unit :=
  print ("Archiving " ++ set_repr (directories self) ++ LF ++ LF) ;;;
  archives_location <~ archive_all self compress ;;
  encrypt_file {| files := set_iter archives_location; directories := [] |} ;;;
  print ("Removing archived files..." ++ LF) ;;;
  py_for (set_iter archives_location) os_remove.

(** The loop of [decrypt_dir]. *)
Definition unarchive_all (self : Cryptfile) : py (list string) :=
  py_fold (files self) []
    (fun archives_location file =>
       let archive_file := split_head ".enc" file in
       Utils.unarchive_dir archive_file ;;;
       py_ret (archives_location ++ [archive_file])%list).

Definition decrypt_dir (self : Cryptfile) : py unit :=
  decrypt_file {| files := files self; directories := [] |} ;;;
  print ("Extracting archived files " ++ set_repr (files self) ++ LF) ;;;
  archives_location <~ unarchive_all self ;;
  print ("Removing archived files..." ++ LF) ;;;
  py_for (set_iter archives_location) os_remove.

End WithOs.
End Cryptfile.

(** The command line after parsing: [None] when an option is absent. *)
Module Main.

Record Args : Type := {
  encrypt : option (list string);
  decrypt : option (list string);
  encrypt_dir : option (list string);
  decrypt_dir : option (list string);
  remove : bool;
  compress : bool
}.

Section WithOs.
Context `{PyLib} `{PyOs}.

Definition py_when (b : bool) (m : py unit) : py unit :=
  if b then m else py_ret tt.

Definition process (args : Args) : py unit :=
  match encrypt args with
  | Some files =>
      Cryptfile.encrypt_file
        {| Cryptfile.files := set_iter files; Cryptfile.directories := [] |} ;;;
      py_when (remove args) (py_for files os_remove)
  | None => py_ret tt
  end ;;;
  match decrypt args with
  | Some files =>
      Cryptfile.decrypt_file
        {| Cryptfile.files := set_iter files; Cryptfile.directories := [] |} ;;;
      py_when (remove args) (py_for files os_remove)
  | None => py_ret tt
  end ;;;
  match encrypt_dir args with
  | Some directories =>
      Cryptfile.encrypt_dir
        {| Cryptfile.files := []; Cryptfile.directories := set_iter directories |}
        (compress args) ;;;
      py_when (remove args) (py_for directories rmtree)
  | None => py_ret tt
  end ;;;
  match decrypt_dir args with
  | Some files =>
      Cryptfile.decrypt_dir
        {| Cryptfile.files := set_iter files; Cryptfile.directories := [] |} ;;;
      py_when (remove args) (py_for files os_remove)
  | None => py_ret tt
  end.

End WithOs.
End Main.

(** ** obsfile/security.py *)

Module obsfile.
Section WithLib.
Context `{PyLib}.

Definition encrypt (data : list byte) (key : pyval) : py pyval :=
  random_bytes <~ (b <~ get_random_bytes 32 ;; py_ret (PyStr (py_str (PyBytes b)))) ;;
  private_key <~ scrypt key random_bytes 32 (2 ^ 14) 8 1 ;;
  cipher <~ AES_new private_key None ;;
  ct <~ encrypt_and_digest cipher data ;;
  let configs :=
    PyDict [ (PyStr "salt", random_bytes); (PyStr "ciphertext", PyBytes (fst ct));
             (PyStr "nonce", cipher_nonce cipher); (PyStr "tag", PyBytes (snd ct)) ] in
  py_ret configs.

Definition decrypt (configs key : pyval) : py (list byte) :=
  random_bytes <~ (b <~ get_random_bytes 32 ;; py_ret (PyStr (py_str (PyBytes b)))) ;;
  random_bytes <~ py_lift (getitem configs "salt") ;;
  ciphertext <~ py_lift (getitem configs "ciphertext") ;;
  nonce <~ py_lift (getitem configs "nonce") ;;
  tag <~ py_lift (getitem configs "tag") ;;
  private_key <~ scrypt key random_bytes 32 (2 ^ 14) 8 1 ;;
  cipher <~ AES_new private_key (Some nonce) ;;
  data <~ decrypt_and_verify cipher ciphertext tag ;;
  py_ret data.

End WithLib.
End obsfile.

(** ** What the proofs take from the libraries *)

Section Contracts.
Context `{PyLib}.

(** scrypt accepts two strings with the program's cost parameters and
    returns as many bytes as were asked for. *)
Definition scrypt_derives (key_len N r p : Z) : Prop :=
  forall password salt : string,
    exists key, scrypt_kdf (PyStr password) (PyStr salt) key_len N r p = Ok key
                /\ length key = Z.to_nat key_len.

(** AES-GCM seals any data under a 32-byte key and a 16-byte nonce. *)
Definition gcm_seals : Prop :=
  forall key n data,
    length key = 32%nat -> length n = 16%nat ->
    exists ct tg, AES_GCM_encrypt_and_digest key (PyBytes n) data = Ok (ct, tg).

(** The ciphertext is as long as the data (no padding). *)
Definition gcm_keeps_length : Prop :=
  forall key n data ct tg,
    AES_GCM_encrypt_and_digest key n data = Ok (ct, tg) ->
    length ct = length data.

(** Opening what was sealed, with the same key and nonce, gives the data. *)
Definition gcm_opens : Prop :=
  forall key n data ct tg,
    AES_GCM_encrypt_and_digest key (PyBytes n) data = Ok (ct, tg) ->
    AES_GCM_decrypt_and_verify key (PyBytes n) (PyBytes ct) (PyBytes tg) = Ok data.

(** Unpickling the pickle of [v] gives [v] back. *)
Definition pickle_inverts (v : pyval) : Prop :=
  pickle_loads (pickle_dumps v) = Ok v.

End Contracts.

(** ** A small instance of the libraries

    Used to run the program on concrete inputs.  Nothing here is secure:
    the digest is the identity, the derived key is a prefix of its inputs,
    the cipher reverses the data and the tag repeats key, nonce and
    ciphertext; the serializer is a tagged, length-prefixed format. *)
Module Ref.
Local Open Scope list_scope.

Definition ref_str (v : pyval) : string :=
  match v with
  | PyNone => "None"
  | PyInt _ => "<int>"
  | PyStr s => s
  | PyBytes b => ("b'" ++ string_of_list_byte b ++ "'")%string
  | PyDict _ => "<dict>"
  end.

Definition ref_scrypt (password salt : pyval) (key_len N r p : Z)
  : result (list byte) :=
  match password, salt with
  | PyStr pw, PyStr s =>
      let n := Z.to_nat key_len in
      Ok (firstn n (list_byte_of_string pw ++ list_byte_of_string s
                    ++ repeat "000"%byte n))
  | _, _ => Raise TypeError
  end.

Definition key_size_ok (key : list byte) : bool :=
  let n := length key in
  (n =? 16)%nat || (n =? 24)%nat || (n =? 32)%nat.

Definition ref_tag (key n ct : list byte) : list byte := key ++ n ++ ct.

Definition bytes_eqb (a b : list byte) : bool :=
  bool_decide (map Byte.to_N a = map Byte.to_N b).

Definition ref_seal (key : list byte) (nonce : pyval) (data : list byte)
  : result (list byte * list byte) :=
  match nonce with
  | PyBytes n =>
      if key_size_ok key && negb (length n =? 0)%nat
      then Ok (rev data, ref_tag key n (rev data))
      else Raise (ValueError "Incorrect AES key length or empty nonce")
  | _ => Raise TypeError
  end.

Definition ref_open (key : list byte) (nonce ciphertext tag : pyval)
  : result (list byte) :=
  match nonce, ciphertext, tag with
  | PyBytes n, PyBytes ct, PyBytes tg =>
      if key_size_ok key && negb (length n =? 0)%nat
      then if bytes_eqb tg (ref_tag key n ct)
           then Ok (rev ct)
           else Raise IntegrityError
      else Raise (ValueError "Incorrect AES key length or empty nonce")
  | _, _, _ => Raise TypeError
  end.

(** Numbers in the serialized form: the bits of the number, lowest
    first, one per byte, closed by a stop byte. *)
Fixpoint put_pos (p : positive) : list byte :=
  match p with
  | xH => ["002"%byte]
  | xO q => "000"%byte :: put_pos q
  | xI q => "001"%byte :: put_pos q
  end.

Definition put_nat (n : nat) : list byte := put_pos (Pos.of_succ_nat n).

Fixpoint get_pos (l : list byte) : option (positive * list byte) :=
  match l with
  | [] => None
  | b :: l' =>
      match Byte.to_N b with
      | 2%N => Some (xH, l')
      | 0%N => match get_pos l' with
               | Some (q, rest) => Some (xO q, rest)
               | None => None
               end
      | 1%N => match get_pos l' with
               | Some (q, rest) => Some (xI q, rest)
               | None => None
               end
      | _ => None
      end
  end.

Definition get_nat (l : list byte) : option (nat * list byte) :=
  match get_pos l with
  | Some (p, rest) => Some (Nat.pred (Pos.to_nat p), rest)
  | None => None
  end.

Definition put_int (z : Z) : list byte :=
  match z with
  | Z0 => "000"%byte :: put_nat 0
  | Zpos p => "000"%byte :: put_nat (Pos.to_nat p)
  | Zneg p => "001"%byte :: put_nat (Pos.to_nat p)
  end.

Fixpoint ref_dumps (v : pyval) : list byte :=
  match v with
  | PyNone => ["078"%byte]
  | PyInt z => "073"%byte :: put_int z
  | PyStr s => "083"%byte :: put_nat (String.length s) ++ list_byte_of_string s
  | PyBytes b => "066"%byte :: put_nat (length b) ++ b
  | PyDict items =>
      "068"%byte :: put_nat (length items) ++
      (fix entries (l : list (pyval * pyval)) : list byte :=
         match l with
         | [] => []
         | (k, x) :: l' => ref_dumps k ++ ref_dumps x ++ entries l'
         end) items
  end.

(** Reading back, with fuel for the nesting depth. *)
Fixpoint get_val (fuel : nat) (l : list byte) : option (pyval * list byte) :=
  match fuel with
  | O => None
  | S fuel' =>
      match l with
      | [] => None
      | b :: l' =>
          match Byte.to_N b with
          | 78%N => Some (PyNone, l')
          | 73%N =>
              match l' with
              | sign :: l'' =>
                  match get_nat l'' with
                  | Some (n, rest) =>
                      Some (PyInt (if (Byte.to_N sign =? 0)%N then Z.of_nat n
                                   else - Z.of_nat n), rest)
                  | None => None
                  end
              | [] => None
              end
          | 83%N =>
              match get_nat l' with
              | Some (n, rest) =>
                  if (n <=? length rest)%nat
                  then Some (PyStr (string_of_list_byte (firstn n rest)), skipn n rest)
                  else None
              | None => None
              end
          | 66%N =>
              match get_nat l' with
              | Some (n, rest) =>
                  if (n <=? length rest)%nat
                  then Some (PyBytes (firstn n rest), skipn n rest)
                  else None
              | None => None
              end
          | 68%N =>
              match get_nat l' with
              | Some (n, rest) =>
                  (fix entries (count : nat) (l : list byte) (acc : list (pyval * pyval))
                     : option (pyval * list byte) :=
                     match count with
                     | O => Some (PyDict (rev acc), l)
                     | S count' =>
                         match get_val fuel' l with
                         | Some (k, l1) =>
                             match get_val fuel' l1 with
                             | Some (x, l2) => entries count' l2 ((k, x) :: acc)
                             | None => None
                             end
                         | None => None
                         end
                     end) n rest []
              | None => None
              end
          | _ => None
          end
      end
  end.

Definition ref_loads (data : list byte) : result pyval :=
  match data with
  | [] => Raise EOFError
  | _ => match get_val (length data) data with
         | Some (v, _) => Ok v
         | None => Raise UnpicklingError
         end
  end.

Definition ref_fspath (name : pyval) : result string :=
  match name with
  | PyStr s => Ok s
  | PyBytes b => Ok (string_of_list_byte b)
  | _ => Raise TypeError
  end.

Definition lib : PyLib := {|
  py_str := ref_str;
  encode_utf8 := list_byte_of_string;
  SHA256_hexdigest := string_of_list_byte;
  scrypt_kdf := ref_scrypt;
  AES_GCM_encrypt_and_digest := ref_seal;
  AES_GCM_decrypt_and_verify := ref_open;
  pickle_dumps := ref_dumps;
  pickle_loads := ref_loads;
  os_fspath := ref_fspath
|}.

(** A tape of random bytes: byte [i] is [seed + 7 * i] modulo 256. *)
Definition ref_tape (seed : nat) (i : nat) : byte :=
  match Byte.of_nat ((seed + 7 * i) mod 256) with
  | Some b => b
  | None => "000"%byte
  end.

Definition world0 (files : list (string * list byte)) (seed : nat)
  (lines : list string) : world :=
  {| fs := list_to_map files; tape := ref_tape seed; pos := 0;
     tty := lines; log := [] |}.

End Ref.

(** ** More library facts, for the batch and directory modes *)

Section MoreContracts.
Context `{PyLib} `{PyOs}.

(** Pickle inverts on the dict of a container whose four binary fields are
    bytes and whose file name is a string. *)
Definition pickle_inverts_containers : Prop :=
  forall (ct s tg n : list byte) (f : string),
    pickle_inverts
      (Template.__dict__
         {| Template.ciphertext := PyBytes ct; Template.salt := PyBytes s;
            Template.tag := PyBytes tg; Template.nonce := PyBytes n;
            Template.filename := PyStr f |}).

(** Authenticated decryption returns data only from a cipher object that
    exists and a ciphertext that it takes: a key of an AES size, a nonce
    that is a non-empty bytes value, a bytes ciphertext. *)
Definition gcm_opens_checked : Prop :=
  forall key n ct tg data,
    AES_GCM_decrypt_and_verify key n ct tg = Ok data ->
    reaches_verify {| cipher_key := key; cipher_nonce := n |} ct = true.

(** [open] takes a string as the path it names. *)
Definition fspath_of_str : Prop :=
  forall path : string, os_fspath (PyStr path) = Ok path.

(** Iterating a set visits each of its elements once. *)
Definition set_iter_spec : Prop :=
  forall l : list string,
    NoDup (set_iter l) /\ forall x, In x (set_iter l) <-> In x l.

End MoreContracts.

(** A small instance of [PyOs]: a set is iterated in the order in which
    its elements were last inserted; an archive is one file, named after the base name and the
    format, that records which directory it packs; unpacking checks that
    the archive exists. *)
Module RefOs.
Local Open Scope list_scope.

Definition ref_make_archive (base_name format root_dir : string) : py string :=
  let path := (base_name ++ "." ++ format)%string in
  write_file path (list_byte_of_string ("archive of " ++ root_dir)%string) ;;;
  py_ret path.

Definition ref_unpack_archive (filename extract_dir : string) : py unit :=
  _ <~ read_file filename ;; py_ret tt.

Definition os : PyOs := {|
  set_iter := remove_dups;
  set_repr := fun l => ("{" ++ String.concat ", " l ++ "}")%string;
  make_archive := ref_make_archive;
  unpack_archive := ref_unpack_archive;
  rmtree := fun _ => py_ret tt
|}.

End RefOs.

(** The two loops of the small serializer, named, to reason about them. *)
Module RefPickle.
Local Open Scope list_scope.

Fixpoint dump_entries (l : list (pyval * pyval)) : list byte :=
  match l with
  | [] => []
  | (k, x) :: l' => Ref.ref_dumps k ++ Ref.ref_dumps x ++ dump_entries l'
  end.

Definition read_entries (fuel : nat)
  : nat -> list byte -> list (pyval * pyval) -> option (pyval * list byte) :=
  fix entries (count : nat) (l : list byte) (acc : list (pyval * pyval))
      {struct count} : option (pyval * list byte) :=
    match count with
    | O => Some (PyDict (rev acc), l)
    | S count' =>
        match Ref.get_val fuel l with
        | Some (k, l1) =>
            match Ref.get_val fuel l1 with
            | Some (x, l2) => entries count' l2 ((k, x) :: acc)
            | None => None
            end
        | None => None
        end
    end.

(** Values without nesting. *)
Definition flat (v : pyval) : Prop :=
  match v with
  | PyStr _ | PyBytes _ => True
  | _ => False
  end.

End RefPickle.

(** ** Sample inputs *)

Module Sample.
Import Template.

Definition bytes_of (s : string) : list byte := list_byte_of_string s.

(** With the small instance the digest of a passphrase is the passphrase. *)
Definition correct : list byte := bytes_of "correct".

(** The container of [b"hi"] under ["correct"], random seed 3. *)
Definition container : CipherConfig :=
  Eval vm_compute in
    match fst (@Security.encrypt Ref.lib (Security.__init__ correct)
                 (bytes_of "hi") (Ref.world0 [] 3 [])) with
    | Ok cc => cc
    | Raise _ => Template.new PyNone PyNone PyNone PyNone
    end.

Definition encrypted_empty (seed : nat) : CipherConfig :=
  match fst (@Security.encrypt Ref.lib (Security.__init__ correct) []
               (Ref.world0 [] seed [])) with
  | Ok cc => cc
  | Raise _ => Template.new PyNone PyNone PyNone PyNone
  end.

(** The containers of the empty plaintext, random seeds 3 and 4. *)
Definition empty3 : CipherConfig := Eval vm_compute in encrypted_empty 3.
Definition empty4 : CipherConfig := Eval vm_compute in encrypted_empty 4.

(** The same container with the file name the batch stores in it. *)
Definition named_container : CipherConfig :=
  set_filename container (PyStr "hello.txt").

(** A dict with the five keys and values of the wrong types, and a dict
    without the nonce. *)
Definition mistyped : pyval :=
  PyDict [ (PyStr "ciphertext", PyInt 5); (PyStr "salt", PyNone);
           (PyStr "tag", PyStr "x"); (PyStr "nonce", PyInt 0);
           (PyStr "filename", PyInt 1) ].

Definition without_nonce : pyval :=
  PyDict [ (PyStr "ciphertext", PyBytes []); (PyStr "salt", PyBytes []);
           (PyStr "tag", PyBytes []); (PyStr "filename", PyStr "a") ].

Definition malformed_world : world :=
  Ref.world0 [ ("mistyped.enc", Ref.ref_dumps mistyped);
               ("short.enc", Ref.ref_dumps without_nonce);
               ("empty.enc", []) ] 0 [].

Definition batch (names : list string) : Cryptfile.Cryptfile :=
  {| Cryptfile.files := names; Cryptfile.directories := [] |}.

(** Two files on disk, one named in the batch is missing. *)
Definition batch_world : world :=
  Ref.world0 [ ("b.txt", bytes_of "bee"); ("c.txt", bytes_of "sea") ] 3
    ["correct"; "correct"].

(** An artifact renamed after encryption, next to an unrelated file that
    carries the original name. *)
Definition renamed_world : world :=
  Ref.world0 [ ("renamed.bin", Ref.ref_dumps (__dict__ named_container));
               ("hello.txt", bytes_of "unrelated") ] 0 ["correct"].

(** The dict that the earlier [encrypt] builds for [b"hi"] under the key
    ["k"], random seed 3, and the same dict with [None] for the nonce. *)
Definition legacy_configs : pyval :=
  Eval vm_compute in
    match fst (@obsfile.encrypt Ref.lib (bytes_of "hi") (PyStr "k")
                 (Ref.world0 [] 3 [])) with
    | Ok configs => configs
    | Raise _ => PyNone
    end.

Definition legacy_configs_nonce_none : pyval :=
  Eval vm_compute in
    match legacy_configs with
    | PyDict items =>
        PyDict (map (fun kv => if str_key "nonce" kv then (fst kv, PyNone) else kv)
                  items)
    | v => v
    end.

(** The user types two different passphrases. *)
Definition mismatch_world : world :=
  Ref.world0 [ ("hello.txt", bytes_of "hi") ] 3 ["correct"; "wrong"].

End Sample.

(** * Properties *)

Import Template.

(** ** Stepping through a computation *)

Lemma bind_ok {A B} (m : py A) (k : A -> py B) w a w' :
  m w = (Ok a, w') -> py_bind m k w = k a w'.
Proof. intros E. unfold py_bind. by rewrite E. Qed.

Lemma bind_raise {A B} (m : py A) (k : A -> py B) w e w' :
  m w = (Raise e, w') -> py_bind m k w = (Raise e, w').
Proof. intros E. unfold py_bind. by rewrite E. Qed.

Ltac wsimpl :=
  cbn [fs tape pos tty log emit set_pos set_fs set_tty fst snd
       cipher_key cipher_nonce ciphertext salt tag nonce filename
       Template.new Template.set_filename Utils.attrs] in *.

Lemma PyBytes_inj (a b : list byte) : PyBytes a = PyBytes b -> a = b.
Proof. by intros [= ->]. Qed.

Lemma prompts_app (l l' : list event) :
  prompts (l ++ l') = (prompts l ++ prompts l')%list.
Proof. apply flat_map_app. Qed.

Lemma random_bytes_length (w : world) (p n : nat) :
  length (map (tape w) (seq p n)) = n.
Proof. by rewrite length_map, length_seq. Qed.

Lemma kdf_scrypt_eq `{PyLib} (H0 : list byte) (s : pyval) (w : world) :
  Security._kdf_scrypt (Security.__init__ H0) s w =
  (scrypt_kdf (PyStr (py_str (PyBytes H0))) (PyStr (py_str s)) 32 (2 ^ 20) 8 1,
   emit w (EvScrypt (PyStr (py_str (PyBytes H0))) (PyStr (py_str s))
             32 (2 ^ 20) 8 1)).
Proof. reflexivity. Qed.

(** [encrypt] draws 32 bytes of salt and 16 of nonce, derives the key and
    seals; the container holds what was drawn. *)
Lemma encrypt_eq `{PyLib} (H0 P : list byte) (w : world) key :
  let s := map (tape w) (seq (pos w) 32) in
  let n := map (tape w) (seq (pos w + 32) 16) in
  let ev := EvScrypt (PyStr (py_str (PyBytes H0))) (PyStr (py_str (PyBytes s)))
              32 (2 ^ 20) 8 1 in
  scrypt_kdf (PyStr (py_str (PyBytes H0))) (PyStr (py_str (PyBytes s)))
    32 (2 ^ 20) 8 1 = Ok key ->
  Security.encrypt (Security.__init__ H0) P w =
  (match AES_GCM_encrypt_and_digest key (PyBytes n) P with
   | Ok ct => Ok (Template.new (PyBytes (fst ct)) (PyBytes s) (PyBytes (snd ct))
                    (PyBytes n))
   | Raise e => Raise e
   end,
   set_pos (emit (set_pos w (pos w + 32)) ev) (pos w + 32 + 16)).
Proof.
  intros s n ev Ekey. subst s n ev. unfold Security.encrypt.
  erewrite bind_ok by reflexivity.
  erewrite bind_ok by (rewrite kdf_scrypt_eq, Ekey; reflexivity).
  erewrite bind_ok by reflexivity.
  unfold encrypt_and_digest, py_lift, py_bind, py_ret. wsimpl.
  by destruct (AES_GCM_encrypt_and_digest _ _ _).
Qed.

Lemma encrypt_kdf_raise `{PyLib} (H0 P : list byte) (w : world) e :
  let s := map (tape w) (seq (pos w) 32) in
  let ev := EvScrypt (PyStr (py_str (PyBytes H0))) (PyStr (py_str (PyBytes s)))
              32 (2 ^ 20) 8 1 in
  scrypt_kdf (PyStr (py_str (PyBytes H0))) (PyStr (py_str (PyBytes s)))
    32 (2 ^ 20) 8 1 = Raise e ->
  Security.encrypt (Security.__init__ H0) P w
  = (Raise e, emit (set_pos w (pos w + 32)) ev).
Proof.
  intros s ev Ekey. subst s ev. unfold Security.encrypt.
  erewrite bind_ok by reflexivity.
  erewrite bind_raise by (rewrite kdf_scrypt_eq, Ekey; reflexivity).
  reflexivity.
Qed.

(** [encrypt] touches no file and shows no prompt. *)
Lemma encrypt_frame `{PyLib} (H0 P : list byte) (w w' : world) r :
  Security.encrypt (Security.__init__ H0) P w = (r, w') ->
  fs w' = fs w /\ prompts (log w') = prompts (log w).
Proof.
  destruct (scrypt_kdf (PyStr (py_str (PyBytes H0)))
              (PyStr (py_str (PyBytes (map (tape w) (seq (pos w) 32)))))
              32 (2 ^ 20) 8 1) as [key|e] eqn:Ekey.
  - rewrite (encrypt_eq _ _ _ _ Ekey). intros [= _ <-]. wsimpl.
    split; [done|]. rewrite prompts_app. simpl. by rewrite app_nil_r.
  - rewrite (encrypt_kdf_raise _ _ _ _ Ekey). intros [= _ <-]. wsimpl.
    split; [done|]. rewrite prompts_app. simpl. by rewrite app_nil_r.
Qed.

(** What a successful [encrypt] has done. *)
Lemma encrypt_inv `{PyLib} (H0 P : list byte) (w w' : world) cc :
  Security.encrypt (Security.__init__ H0) P w = (Ok cc, w') ->
  let s := map (tape w) (seq (pos w) 32) in
  let n := map (tape w) (seq (pos w + 32) 16) in
  let ev := EvScrypt (PyStr (py_str (PyBytes H0))) (PyStr (py_str (PyBytes s)))
              32 (2 ^ 20) 8 1 in
  exists key ct tg,
    scrypt_kdf (PyStr (py_str (PyBytes H0))) (PyStr (py_str (PyBytes s)))
      32 (2 ^ 20) 8 1 = Ok key /\
    AES_GCM_encrypt_and_digest key (PyBytes n) P = Ok (ct, tg) /\
    cc = Template.new (PyBytes ct) (PyBytes s) (PyBytes tg) (PyBytes n) /\
    w' = set_pos (emit (set_pos w (pos w + 32)) ev) (pos w + 32 + 16).
Proof.
  intros E s n ev. subst s n ev.
  destruct (scrypt_kdf (PyStr (py_str (PyBytes H0)))
              (PyStr (py_str (PyBytes (map (tape w) (seq (pos w) 32)))))
              32 (2 ^ 20) 8 1) as [key|e] eqn:Ekey.
  - rewrite (encrypt_eq _ _ _ _ Ekey) in E.
    destruct (AES_GCM_encrypt_and_digest _ _ _) as [[ct tg]|e] eqn:Eseal;
      [|discriminate].
    injection E as <- <-. exists key, ct, tg. by repeat split.
  - rewrite (encrypt_kdf_raise _ _ _ _ Ekey) in E. discriminate.
Qed.

(** [decrypt] is the key derivation followed by the library's
    authenticated decryption, under the stored nonce or, when that is
    [None], under the 16 bytes drawn in its place; the log grows by the
    scrypt call and the random source moves by what the library drew. *)
Lemma decrypt_eq `{PyLib} (H0 : list byte) (cc : CipherConfig) (w : world) key :
  let ev := EvScrypt (PyStr (py_str (PyBytes H0))) (PyStr (py_str (salt cc)))
              32 (2 ^ 20) 8 1 in
  scrypt_kdf (PyStr (py_str (PyBytes H0))) (PyStr (py_str (salt cc)))
    32 (2 ^ 20) 8 1 = Ok key ->
  Security.decrypt (Security.__init__ H0) cc w =
  (AES_GCM_decrypt_and_verify key (cipher_nonce_in w (nonce cc)) (ciphertext cc)
     (tag cc),
   set_pos (emit w ev)
     (pos w + opening_draws w key (nonce cc) (ciphertext cc))).
Proof.
  intros ev Ekey. subst ev. unfold Security.decrypt. wsimpl.
  erewrite bind_ok by (rewrite kdf_scrypt_eq, Ekey; reflexivity).
  unfold opening_draws, cipher_nonce_in, AES_new, decrypt_and_verify,
    reaches_verify.
  destruct (nonce cc) as [| z | s | [|b n] | items], (ciphertext cc);
    unfold get_random_bytes, py_lift, py_bind, py_ret; wsimpl;
    try destruct (aes_key_size key);
    destruct (AES_GCM_decrypt_and_verify _ _ _ _);
    f_equal; destruct w; unfold set_pos, emit; simpl; f_equal; lia.
Qed.

(** ** The small instance meets the contracts *)

Lemma ref_scrypt_derives (key_len N r p : Z) :
  @scrypt_derives Ref.lib key_len N r p.
Proof.
  intros pw s. eexists. split; [reflexivity|].
  rewrite length_take, !length_app, repeat_length. lia.
Qed.

Lemma ref_gcm_seals : @gcm_seals Ref.lib.
Proof.
  intros key n data Hk Hn. exists (rev data), (Ref.ref_tag key n (rev data)).
  cbn. unfold Ref.ref_seal, Ref.key_size_ok. by rewrite Hk, Hn.
Qed.

Lemma ref_gcm_keeps_length : @gcm_keeps_length Ref.lib.
Proof.
  intros key n data ct tg. cbn. unfold Ref.ref_seal.
  destruct n; try discriminate.
  destruct (_ && _); [|discriminate].
  intros [= <- _]. apply length_rev.
Qed.

Lemma bytes_eqb_refl (a : list byte) : Ref.bytes_eqb a a = true.
Proof. unfold Ref.bytes_eqb. by apply bool_decide_eq_true. Qed.

Lemma ref_gcm_opens : @gcm_opens Ref.lib.
Proof.
  intros key n data ct tg. cbn. unfold Ref.ref_seal, Ref.ref_open.
  destruct (Ref.key_size_ok key && negb (length n =? 0)%nat); [|discriminate].
  intros [= <- <-]. by rewrite bytes_eqb_refl, rev_involutive.
Qed.

Lemma ref_gcm_opens_checked : @gcm_opens_checked Ref.lib.
Proof.
  intros key n ct tg data. cbn. unfold Ref.ref_open, reaches_verify.
  destruct n as [| | | [|b n] |], ct, tg; try discriminate; cbn.
  - by rewrite andb_false_r.
  - destruct (Ref.key_size_ok key) eqn:Ek; [|discriminate]. intros _. exact Ek.
Qed.

(** ** Encryption and decryption *)

(** C1. Whatever the plaintext, the passphrase hash and the random bytes
    drawn, [encrypt] returns a container and [decrypt], with the same
    passphrase hash, returns the plaintext from it. *)
Theorem encrypt_decrypt_roundtrip `{PyLib} (H0 P : list byte) (w : world) :
  scrypt_derives 32 (2 ^ 20) 8 1 -> gcm_seals -> gcm_opens ->
  exists cc w',
    Security.encrypt (Security.__init__ H0) P w = (Ok cc, w') /\
    forall w2, fst (Security.decrypt (Security.__init__ H0) cc w2) = Ok P.
Proof.
  intros Hkdf Hseal Hopen.
  destruct (Hkdf (py_str (PyBytes H0))
              (py_str (PyBytes (map (tape w) (seq (pos w) 32)))))
    as (key & Ekey & Lkey).
  destruct (Hseal key (map (tape w) (seq (pos w + 32) 16)) P)
    as (ct & tg & Eseal); [exact Lkey | apply random_bytes_length |].
  eexists. eexists. split.
  - rewrite (encrypt_eq _ _ _ _ Ekey), Eseal. reflexivity.
  - intros w2. erewrite decrypt_eq by (wsimpl; exact Ekey). wsimpl.
    by apply Hopen.
Qed.

Lemma encrypt_decrypt_roundtrip_witness :
  exists cc w',
    @Security.encrypt Ref.lib (Security.__init__ (list_byte_of_string "correct"))
      (list_byte_of_string "hi") (Ref.world0 [] 3 []) = (Ok cc, w') /\
    forall w2, fst (@Security.decrypt Ref.lib
                      (Security.__init__ (list_byte_of_string "correct")) cc w2)
               = Ok (list_byte_of_string "hi").
Proof.
  apply (@encrypt_decrypt_roundtrip Ref.lib).
  - apply ref_scrypt_derives.
  - apply ref_gcm_seals.
  - apply ref_gcm_opens.
Defined.

(** C8. The key is a function of the passphrase hash and the salt alone:
    every call derives the same 32-byte key, with the cost parameters
    fixed at construction (N = 2^20, r = 8, p = 1), and [decrypt] repeats on
    the stored salt the very scrypt call that [encrypt] made. *)
Theorem kdf_scrypt_deterministic `{PyLib} (H0 : list byte) (s : pyval)
    (w1 w2 : world) :
  scrypt_derives 32 (2 ^ 20) 8 1 ->
  let call salt := EvScrypt (PyStr (py_str (PyBytes H0))) (PyStr (py_str salt))
                     32 (2 ^ 20) 8 1 in
  fst (Security._kdf_scrypt (Security.__init__ H0) s w1)
  = fst (Security._kdf_scrypt (Security.__init__ H0) s w2)
  /\ (exists key, fst (Security._kdf_scrypt (Security.__init__ H0) s w1) = Ok key
                  /\ length key = 32%nat)
  /\ log (snd (Security._kdf_scrypt (Security.__init__ H0) s w1))
     = (log w1 ++ [call s])%list
  /\ forall P cc w',
       Security.encrypt (Security.__init__ H0) P w1 = (Ok cc, w') ->
       log w' = (log w1 ++ [call (salt cc)])%list
       /\ forall w3,
            log (snd (Security.decrypt (Security.__init__ H0) cc w3))
            = (log w3 ++ [call (salt cc)])%list.
Proof.
  intros Hkdf call. subst call. split; [|split; [|split]].
  - by rewrite !kdf_scrypt_eq.
  - rewrite kdf_scrypt_eq. wsimpl.
    destruct (Hkdf (py_str (PyBytes H0)) (py_str s)) as (key & Ekey & Lkey).
    by exists key.
  - by rewrite kdf_scrypt_eq.
  - intros P cc w' Eenc. split.
    + apply encrypt_inv in Eenc as (key & ct & tg & _ & _ & -> & ->). by wsimpl.
    + intros w3.
      destruct (Hkdf (py_str (PyBytes H0)) (py_str (salt cc))) as (key & Ekey & _).
      by rewrite (decrypt_eq _ _ _ _ Ekey).
Qed.

Lemma kdf_scrypt_deterministic_witness :
  let call salt := EvScrypt (PyStr (@py_str Ref.lib (PyBytes Sample.correct)))
                     (PyStr (@py_str Ref.lib salt)) 32 (2 ^ 20) 8 1 in
  let s := PyBytes (Sample.bytes_of "salt") in
  let w1 := Ref.world0 [] 3 [] in
  let w2 := Ref.world0 [] 4 [] in
  fst (@Security._kdf_scrypt Ref.lib (Security.__init__ Sample.correct) s w1)
  = fst (@Security._kdf_scrypt Ref.lib (Security.__init__ Sample.correct) s w2)
  /\ (exists key,
        fst (@Security._kdf_scrypt Ref.lib (Security.__init__ Sample.correct) s w1)
        = Ok key /\ length key = 32%nat)
  /\ log (snd (@Security._kdf_scrypt Ref.lib (Security.__init__ Sample.correct) s w1))
     = (log w1 ++ [call s])%list
  /\ forall P cc w',
       @Security.encrypt Ref.lib (Security.__init__ Sample.correct) P w1 = (Ok cc, w') ->
       log w' = (log w1 ++ [call (salt cc)])%list
       /\ forall w3,
            log (snd (@Security.decrypt Ref.lib (Security.__init__ Sample.correct) cc w3))
            = (log w3 ++ [call (salt cc)])%list.
Proof.
  apply (@kdf_scrypt_deterministic Ref.lib). apply ref_scrypt_derives.
Defined.

(** With any library whose ciphertext is as long as the plaintext, the
    ciphertext of the empty plaintext is empty, whatever salt was drawn. *)
Lemma empty_plaintext_empty_ciphertext `{PyLib} (H0 : list byte) (w : world) cc :
  gcm_keeps_length ->
  fst (Security.encrypt (Security.__init__ H0) [] w) = Ok cc ->
  ciphertext cc = PyBytes [].
Proof.
  intros Hlen E.
  destruct (Security.encrypt (Security.__init__ H0) [] w) as [r w'] eqn:Eenc.
  simpl in E. subst r.
  apply encrypt_inv in Eenc as (key & ct & tg & Ekey & Eseal & -> & _). wsimpl.
  apply Hlen in Eseal. by destruct ct.
Qed.

(** C9, as the code has it. Each encryption takes the next 32 bytes of the
    random source as its salt and stores them in the container, and the
    source moves on, so two runs that draw distinct bytes give containers
    with distinct salts. Nothing is promised about the ciphertexts. *)
Theorem fresh_salt_per_encryption `{PyLib} (H0 P : list byte) (w1 w2 : world)
    (cc1 cc2 : CipherConfig) :
  fst (Security.encrypt (Security.__init__ H0) P w1) = Ok cc1 ->
  fst (Security.encrypt (Security.__init__ H0) P w2) = Ok cc2 ->
  let s1 := map (tape w1) (seq (pos w1) 32) in
  let s2 := map (tape w2) (seq (pos w2) 32) in
  salt cc1 = PyBytes s1 /\ salt cc2 = PyBytes s2
  /\ length s1 = 32%nat /\ length s2 = 32%nat
  /\ (s1 <> s2 -> salt cc1 <> salt cc2)
  /\ pos (snd (Security.encrypt (Security.__init__ H0) P w1)) = (pos w1 + 32 + 16)%nat
  /\ pos (snd (Security.encrypt (Security.__init__ H0) P w2)) = (pos w2 + 32 + 16)%nat.
Proof.
  intros E1 E2 s1 s2. subst s1 s2.
  destruct (Security.encrypt (Security.__init__ H0) P w1) as [r1 w1'] eqn:Eenc1.
  destruct (Security.encrypt (Security.__init__ H0) P w2) as [r2 w2'] eqn:Eenc2.
  simpl in E1, E2. subst r1 r2.
  apply encrypt_inv in Eenc1 as (k1 & ct1 & tg1 & _ & _ & -> & ->).
  apply encrypt_inv in Eenc2 as (k2 & ct2 & tg2 & _ & _ & -> & ->).
  wsimpl. rewrite !random_bytes_length.
  split; [done|]. split; [done|]. split; [done|]. split; [done|].
  split; [|by split].
  intros Hne Heq. apply Hne. by apply PyBytes_inj.
Qed.

(** The container of the empty plaintext under ["correct"], seeds 3 and 4. *)
Lemma fresh_salt_per_encryption_witness :
  let H0 := Sample.correct in
  let w1 := Ref.world0 [] 3 [] in
  let w2 := Ref.world0 [] 4 [] in
  let s1 := map (tape w1) (seq (pos w1) 32) in
  let s2 := map (tape w2) (seq (pos w2) 32) in
  salt Sample.empty3 = PyBytes s1 /\ salt Sample.empty4 = PyBytes s2
  /\ length s1 = 32%nat /\ length s2 = 32%nat
  /\ (s1 <> s2 -> salt Sample.empty3 <> salt Sample.empty4)
  /\ pos (snd (@Security.encrypt Ref.lib (Security.__init__ H0) [] w1))
     = (pos w1 + 32 + 16)%nat
  /\ pos (snd (@Security.encrypt Ref.lib (Security.__init__ H0) [] w2))
     = (pos w2 + 32 + 16)%nat.
Proof.
  apply (@fresh_salt_per_encryption Ref.lib Sample.correct []
           (Ref.world0 [] 3 []) (Ref.world0 [] 4 [])); vm_compute; reflexivity.
Defined.

(** C9, as stated, fails: the empty plaintext, encrypted twice under the
    same passphrase hash with different salts drawn, gives two containers
    with different salts and the same (empty) ciphertext. *)
Lemma salt_uniqueness_ciphertext_cex :
  fst (@Security.encrypt Ref.lib (Security.__init__ Sample.correct) []
         (Ref.world0 [] 3 [])) = Ok Sample.empty3
  /\ fst (@Security.encrypt Ref.lib (Security.__init__ Sample.correct) []
            (Ref.world0 [] 4 [])) = Ok Sample.empty4
  /\ salt Sample.empty3 <> salt Sample.empty4
  /\ ciphertext Sample.empty3 = ciphertext Sample.empty4.
Proof.
  split; [vm_compute; reflexivity|]. split; [vm_compute; reflexivity|].
  split; [|reflexivity]. vm_compute. discriminate.
Qed.

(** ** Reading and writing files *)

Lemma open_file_pickled_eq `{PyLib} (file : string) (w : world) :
  Utils.open_file file true w =
  (match fs w !! file with
   | None => Raise (FileNotFoundError file)
   | Some content =>
       match pickle_loads content with
       | Ok data_dict => from_kwargs data_dict
       | Raise e => Raise e
       end
   end, emit w (EvOpen file "rb")).
Proof.
  unfold Utils.open_file, read_file, py_bind, py_lift.
  destruct (fs w !! file) as [content|]; [|reflexivity].
  destruct (pickle_loads content) as [d|e]; [|reflexivity].
  by destruct (from_kwargs d).
Qed.

Lemma open_file_raw_eq `{PyLib} (file : string) (w : world) :
  Utils.open_file file false w =
  (match fs w !! file with
   | None => Raise (FileNotFoundError file)
   | Some content => Ok content
   end, emit w (EvOpen file "rb")).
Proof.
  unfold Utils.open_file, read_file, py_bind, py_ret.
  by destruct (fs w !! file).
Qed.

Lemma save_cc_eq `{PyLib} (c : CipherConfig) (file : string) (w : world) :
  Utils.save_cc c file w =
  (Ok tt, set_fs (emit w (EvOpen (file ++ ".enc") "wb"))
            (<[file ++ ".enc" := pickle_dumps (__dict__ c)]> (fs w))).
Proof. reflexivity. Qed.

(** ** Integrity *)



(** ** The earlier decrypt of obsfile/security.py *)

(** The outcome of the earlier [decrypt] is that of opening under the
    stored salt's key and the nonce of the cipher object: when the dict
    holds [None] for the nonce, these are the 16 bytes that follow the 32
    discarded ones on the random tape. *)
Lemma obsfile_decrypt_result `{PyLib} (configs key s ct n tg : pyval)
    (k : list byte) (w : world) :
  getitem configs "salt" = Ok s ->
  getitem configs "ciphertext" = Ok ct ->
  getitem configs "nonce" = Ok n ->
  getitem configs "tag" = Ok tg ->
  scrypt_kdf key s 32 (2 ^ 14) 8 1 = Ok k ->
  fst (obsfile.decrypt configs key w)
  = AES_GCM_decrypt_and_verify k (cipher_nonce_in (set_pos w (pos w + 32)) n)
      ct tg.
Proof.
  intros Es Ec En Et Ek.
  unfold obsfile.decrypt, AES_new, decrypt_and_verify, reaches_verify, scrypt,
    get_random_bytes, py_bind, py_lift, py_ret, cipher_nonce_in.
  rewrite Es, Ec, En, Et. wsimpl. rewrite Ek.
  destruct n as [| z | str | [|b n] | items], ct; wsimpl;
    try destruct (aes_key_size k);
    by destruct (AES_GCM_decrypt_and_verify _ _ _ _).
Qed.

(** C10, as the code has it. For a dict whose nonce is not [None], the
    result of the earlier [decrypt] is the same in any two worlds, so in
    particular for any two random tapes: the 32 bytes it draws are replaced
    by the stored salt before any use, and the 16 bytes that the comparison
    of the tags draws do not reach the result.  Both runs take the same
    number of bytes from the random source, between 32 and 48, and 48 when
    [decrypt] returns data. *)
Theorem obsfile_decrypt_ignores_randomness `{PyLib} (configs key : pyval)
    (w1 w2 : world) :
  getitem configs "nonce" <> Ok PyNone ->
  fst (obsfile.decrypt configs key w1) = fst (obsfile.decrypt configs key w2)
  /\ (pos (snd (obsfile.decrypt configs key w1)) - pos w1
      = pos (snd (obsfile.decrypt configs key w2)) - pos w2)%nat
  /\ (pos w1 + 32 <= pos (snd (obsfile.decrypt configs key w1)) <= pos w1 + 48)%nat
  /\ (gcm_opens_checked ->
      forall data, fst (obsfile.decrypt configs key w1) = Ok data ->
                   pos (snd (obsfile.decrypt configs key w1)) = (pos w1 + 48)%nat).
Proof.
  intros Hnonce.
  unfold obsfile.decrypt, AES_new, decrypt_and_verify, scrypt,
    get_random_bytes, py_bind, py_lift, py_ret.
  destruct (getitem configs "salt") as [s|]; [|wsimpl; repeat split; (lia || done)].
  destruct (getitem configs "ciphertext") as [c|]; [|wsimpl; repeat split; (lia || done)].
  destruct (getitem configs "nonce") as [n|]; [|wsimpl; repeat split; (lia || done)].
  destruct (getitem configs "tag") as [t|]; [|wsimpl; repeat split; (lia || done)].
  wsimpl.
  destruct (scrypt_kdf key s 32 (2 ^ 14) 8 1) as [k|]; [|wsimpl; repeat split; (lia || done)].
  destruct n as [| z | str | n | items]; [done| | | |].
  all: destruct (reaches_verify _ c) eqn:Ereach; wsimpl.
  all: destruct (AES_GCM_decrypt_and_verify k _ c t) eqn:Eopen; wsimpl.
  all: split; [done|]; split; [lia|]; split; [lia|].
  all: intros Hchecked data; try discriminate; intros _; try lia.
  all: apply Hchecked in Eopen; congruence.
Qed.

Lemma obsfile_decrypt_ignores_randomness_witness :
  let configs := Sample.legacy_configs in
  let w1 := Ref.world0 [] 3 [] in
  let w2 := Ref.world0 [] 4 [] in
  fst (@obsfile.decrypt Ref.lib configs (PyStr "k") w1)
  = fst (@obsfile.decrypt Ref.lib configs (PyStr "k") w2)
  /\ (pos (snd (@obsfile.decrypt Ref.lib configs (PyStr "k") w1)) - pos w1
      = pos (snd (@obsfile.decrypt Ref.lib configs (PyStr "k") w2)) - pos w2)%nat
  /\ (pos w1 + 32 <= pos (snd (@obsfile.decrypt Ref.lib configs (PyStr "k") w1))
      <= pos w1 + 48)%nat
  /\ (@gcm_opens_checked Ref.lib ->
      forall data,
        fst (@obsfile.decrypt Ref.lib configs (PyStr "k") w1) = Ok data ->
        pos (snd (@obsfile.decrypt Ref.lib configs (PyStr "k") w1))
        = (pos w1 + 48)%nat).
Proof.
  intros configs w1 w2.
  apply (@obsfile_decrypt_ignores_randomness Ref.lib configs (PyStr "k") w1 w2).
  vm_compute. discriminate.
Defined.

(** C10, as stated, fails: the dict below holds [None] for the nonce, the
    library draws the nonce, and the two runs, which differ in the random
    tape alone, end differently: the first draws the nonce the data was
    sealed under and returns the data, the second fails the tag check. *)
Lemma obsfile_decrypt_drawn_nonce_cex :
  getitem Sample.legacy_configs_nonce_none "nonce" = Ok PyNone
  /\ fst (@obsfile.decrypt Ref.lib Sample.legacy_configs_nonce_none (PyStr "k")
            (Ref.world0 [] 3 []))
     = Ok (Sample.bytes_of "hi")
  /\ fst (@obsfile.decrypt Ref.lib Sample.legacy_configs_nonce_none (PyStr "k")
            (Ref.world0 [] 4 []))
     = Raise IntegrityError.
Proof.
  split; [reflexivity|]. split; vm_compute; reflexivity.
Qed.

(** ** The container on disk *)

Lemma from_kwargs_dict (c : CipherConfig) : from_kwargs (__dict__ c) = Ok c.
Proof. by destruct c. Qed.

Lemma from_kwargs_raise (d : pyval) (e : exn) :
  from_kwargs d = Raise e -> e = TypeError.
Proof.
  unfold from_kwargs. destruct d as [| | | |items]; try by intros [= <-].
  destruct (forallb keyword_ok items); [|by intros [= <-]].
  destruct (dict_get "ciphertext" items); [|by intros [= <-]].
  destruct (dict_get "salt" items); [|by intros [= <-]].
  destruct (dict_get "tag" items); [|by intros [= <-]].
  destruct (dict_get "nonce" items); [discriminate|by intros [= <-]].
Qed.

Lemma from_kwargs_ok (d : pyval) (c : CipherConfig) :
  from_kwargs d = Ok c ->
  exists items,
    d = PyDict items /\ forallb keyword_ok items = true
    /\ dict_get "ciphertext" items = Some (ciphertext c)
    /\ dict_get "salt" items = Some (salt c)
    /\ dict_get "tag" items = Some (tag c)
    /\ dict_get "nonce" items = Some (nonce c)
    /\ filename c = default (PyStr "") (dict_get "filename" items).
Proof.
  unfold from_kwargs. destruct d as [| | | |items]; try discriminate.
  destruct (forallb keyword_ok items) eqn:Ekeys; [|discriminate].
  destruct (dict_get "ciphertext" items) eqn:Ec; [|discriminate].
  destruct (dict_get "salt" items) eqn:Es; [|discriminate].
  destruct (dict_get "tag" items) eqn:Et; [|discriminate].
  destruct (dict_get "nonce" items) eqn:En; [|discriminate].
  intros [= <-]. exists items. wsimpl.
  destruct (dict_get "filename" items); by repeat split.
Qed.

(** C2. Saving a container and opening the saved file gives the container
    back, field for field, whatever the five fields hold. *)
Theorem save_cc_open_file_roundtrip `{PyLib} (c : CipherConfig) (file : string)
    (w : world) :
  pickle_inverts (__dict__ c) ->
  exists w1,
    Utils.save_cc c file w = (Ok tt, w1)
    /\ fs w1 !! (file ++ ".enc") = Some (pickle_dumps (__dict__ c))
    /\ forall w2,
         fs w2 !! (file ++ ".enc") = fs w1 !! (file ++ ".enc") ->
         fst (Utils.open_file (file ++ ".enc") true w2) = Ok c.
Proof.
  intros Hpickle. eexists. split; [apply save_cc_eq|]. wsimpl.
  assert (Hfile : (<[file ++ ".enc" := pickle_dumps (__dict__ c)]> (fs w)
                   : gmap string (list byte)) !! (file ++ ".enc")
                  = Some (pickle_dumps (__dict__ c)))
    by apply lookup_insert_eq.
  split; [exact Hfile|].
  intros w2 Hw2. rewrite open_file_pickled_eq. wsimpl.
  by rewrite Hw2, Hfile, Hpickle, from_kwargs_dict.
Qed.

Lemma save_cc_open_file_roundtrip_witness :
  exists w1,
    @Utils.save_cc Ref.lib Sample.named_container "hello.txt"
      (Ref.world0 [] 0 []) = (Ok tt, w1)
    /\ fs w1 !! ("hello.txt" ++ ".enc")
       = Some (@pickle_dumps Ref.lib (__dict__ Sample.named_container))
    /\ forall w2,
         fs w2 !! ("hello.txt" ++ ".enc") = fs w1 !! ("hello.txt" ++ ".enc") ->
         fst (@Utils.open_file Ref.lib ("hello.txt" ++ ".enc") true w2)
         = Ok Sample.named_container.
Proof.
  apply (@save_cc_open_file_roundtrip Ref.lib). vm_compute. reflexivity.
Defined.

(** C5, as the code has it. Opening a pickled file fails with the
    exception of the first step that fails, under that step's own class: a
    missing file, whatever [pickle.load] raises, or the [TypeError] of the
    constructor call when the unpickled object is not a dict of field
    names with the four required ones.  The values are not inspected: any
    dict of the five fields is accepted, whatever the fields hold. *)
Theorem open_file_failure_modes `{PyLib} (file : string) (w : world) :
  fst (Utils.open_file file true w) =
    match fs w !! file with
    | None => Raise (FileNotFoundError file)
    | Some content =>
        match pickle_loads content with
        | Ok data_dict => from_kwargs data_dict
        | Raise e => Raise e
        end
    end
  /\ (forall d e, from_kwargs d = Raise e -> e = TypeError)
  /\ (forall d c, from_kwargs d = Ok c ->
        exists items,
          d = PyDict items /\ forallb keyword_ok items = true
          /\ dict_get "ciphertext" items = Some (ciphertext c)
          /\ dict_get "salt" items = Some (salt c)
          /\ dict_get "tag" items = Some (tag c)
          /\ dict_get "nonce" items = Some (nonce c)
          /\ filename c = default (PyStr "") (dict_get "filename" items))
  /\ (forall c s t n f : pyval,
        from_kwargs
          (PyDict [ (PyStr "ciphertext", c); (PyStr "salt", s); (PyStr "tag", t);
                    (PyStr "nonce", n); (PyStr "filename", f) ])
        = Ok {| ciphertext := c; salt := s; tag := t; nonce := n;
                filename := f |}).
Proof.
  split; [by rewrite open_file_pickled_eq|].
  split; [apply from_kwargs_raise|].
  split; [apply from_kwargs_ok|].
  reflexivity.
Qed.

(** C5, as stated, fails: a stream that decodes into five fields of the
    wrong types is accepted; a stream without the nonce fails with
    [TypeError] and an empty one with [EOFError], neither of which is the
    integrity error. *)
Lemma malformed_container_cex :
  fst (@Utils.open_file Ref.lib "mistyped.enc" true Sample.malformed_world)
  = Ok {| ciphertext := PyInt 5; salt := PyNone; tag := PyStr "x";
          nonce := PyInt 0; filename := PyInt 1 |}
  /\ fst (@Utils.open_file Ref.lib "short.enc" true Sample.malformed_world)
     = Raise TypeError
  /\ fst (@Utils.open_file Ref.lib "empty.enc" true Sample.malformed_world)
     = Raise EOFError
  /\ TypeError <> IntegrityError /\ EOFError <> IntegrityError.
Proof.
  split; [vm_compute; reflexivity|]. split; [vm_compute; reflexivity|].
  split; [vm_compute; reflexivity|]. by split.
Qed.

(** ** Batches *)

Lemma py_for_app {A} (pre post : list A) (body : A -> py unit) (w w1 : world) :
  py_for pre body w = (Ok tt, w1) ->
  py_for (pre ++ post) body w = py_for post body w1.
Proof.
  revert w. induction pre as [|x pre IH]; intros w E; simpl in *.
  - by injection E as <-.
  - unfold py_bind in *. destruct (body x w) as [[[]|e] w0]; [|discriminate].
    by apply IH.
Qed.

Lemma py_for_abort {A} (pre post : list A) (f : A) (body : A -> py unit)
    (w w1 w2 : world) (e : exn) :
  py_for pre body w = (Ok tt, w1) ->
  body f w1 = (Raise e, w2) ->
  py_for (pre ++ f :: post) body w = (Raise e, w2).
Proof.
  intros Epre Ef. rewrite (py_for_app _ _ _ _ _ Epre). simpl.
  by apply bind_raise.
Qed.

(** What a loop body leaves alone: it never prompts, and when it raises it
    has written no file. *)
Ltac prompts_simpl :=
  wsimpl; rewrite ?prompts_app in *; cbn [prompts flat_map app] in *;
  rewrite ?app_nil_r in *.

Lemma encrypt_file_body_frame `{PyLib} (ph : list byte) (file : string)
    (w w' : world) (r : result unit) :
  Cryptfile.encrypt_file_body ph file w = (r, w') ->
  prompts (log w') = prompts (log w)
  /\ (forall e, r = Raise e -> fs w' = fs w).
Proof.
  unfold Cryptfile.encrypt_file_body.
  unfold py_bind at 1. rewrite open_file_raw_eq.
  destruct (fs w !! file) as [data|].
  2:{ intros [= <- <-]. by prompts_simpl. }
  unfold py_bind at 1. unfold print at 1.
  unfold py_bind at 1.
  destruct (Security.encrypt _ _ _) as [[cc|e] w1] eqn:Eenc;
    apply encrypt_frame in Eenc as [Efs Epr].
  - unfold py_bind, Utils.save_cc, write_file, print.
    intros [= <- <-]. split; [|discriminate].
    prompts_simpl. by rewrite Epr.
  - intros [= <- <-]. split; [|done]. prompts_simpl. by rewrite Epr.
Qed.

Lemma decrypt_kdf_raise `{PyLib} (H0 : list byte) (cc : CipherConfig) (w : world) e :
  let ev := EvScrypt (PyStr (py_str (PyBytes H0))) (PyStr (py_str (salt cc)))
              32 (2 ^ 20) 8 1 in
  scrypt_kdf (PyStr (py_str (PyBytes H0))) (PyStr (py_str (salt cc)))
    32 (2 ^ 20) 8 1 = Raise e ->
  Security.decrypt (Security.__init__ H0) cc w = (Raise e, emit w ev).
Proof.
  intros ev Ekey. subst ev. unfold Security.decrypt. wsimpl.
  erewrite bind_raise by (rewrite kdf_scrypt_eq, Ekey; reflexivity).
  reflexivity.
Qed.

(** [decrypt] touches no file and shows no prompt. *)
Lemma decrypt_frame `{PyLib} (H0 : list byte) (cc : CipherConfig) (w w' : world) r :
  Security.decrypt (Security.__init__ H0) cc w = (r, w') ->
  fs w' = fs w /\ prompts (log w') = prompts (log w).
Proof.
  destruct (scrypt_kdf (PyStr (py_str (PyBytes H0))) (PyStr (py_str (salt cc)))
              32 (2 ^ 20) 8 1) as [key|e] eqn:Ekey.
  - rewrite (decrypt_eq _ _ _ _ Ekey). intros [= _ <-]. by prompts_simpl.
  - rewrite (decrypt_kdf_raise _ _ _ _ Ekey). intros [= _ <-]. by prompts_simpl.
Qed.

Lemma decrypt_file_body_frame `{PyLib} (ph : list byte) (file : string)
    (w w' : world) (r : result unit) :
  Cryptfile.decrypt_file_body ph file w = (r, w') ->
  prompts (log w') = prompts (log w)
  /\ (forall e, r = Raise e -> fs w' = fs w).
Proof.
  unfold Cryptfile.decrypt_file_body.
  unfold py_bind at 1. rewrite open_file_pickled_eq.
  destruct (match fs w !! file with Some _ => _ | None => _ end) as [cc|e].
  2:{ intros [= <- <-]. by prompts_simpl. }
  unfold py_bind at 1. unfold print at 1.
  unfold py_bind at 1.
  destruct (Security.decrypt _ _ _) as [[data|e] w1] eqn:Edec;
    apply decrypt_frame in Edec as [Efs Epr].
  - unfold py_bind, Utils.save_file, py_lift, write_file, print.
    destruct (os_fspath (filename cc)) as [path|e].
    + intros [= <- <-]. split; [|discriminate]. prompts_simpl. by rewrite Epr.
    + intros [= <- <-]. split; [|done]. prompts_simpl. by rewrite Epr.
  - intros [= <- <-]. split; [|done]. prompts_simpl. by rewrite Epr.
Qed.

Lemma body_frame `{PyLib} (d : Cryptfile.direction) (ph : list byte)
    (file : string) (w w' : world) (r : result unit) :
  Cryptfile.body d ph file w = (r, w') ->
  prompts (log w') = prompts (log w)
  /\ (forall e, r = Raise e -> fs w' = fs w).
Proof.
  destruct d; [apply encrypt_file_body_frame | apply decrypt_file_body_frame].
Qed.

Lemma py_for_prompts `{PyLib} (d : Cryptfile.direction) (ph : list byte)
    (names : list string) (w w' : world) (r : result unit) :
  py_for names (Cryptfile.body d ph) w = (r, w') ->
  prompts (log w') = prompts (log w).
Proof.
  revert w. induction names as [|f names IH]; intros w; simpl.
  - by intros [= _ <-].
  - unfold py_bind.
    destruct (Cryptfile.body d ph f w) as [[[]|e] w1] eqn:Ef;
      apply body_frame in Ef as [Epr _].
    + intros E. apply IH in E. by rewrite E.
    + by intros [= _ <-].
Qed.

Lemma run_eq `{PyLib} (d : Cryptfile.direction) (self : Cryptfile.Cryptfile) :
  Cryptfile.run d self =
  py_bind (Security.getpass (Cryptfile.no_check d))
    (fun ph => py_for (Cryptfile.files self) (Cryptfile.body d ph)).
Proof. by destruct d. Qed.

(** C3, as the code has it. The loop has no handler: when the body raises
    on a file, the batch ends with that exception in the world the failure
    left; the files before it are processed and what they wrote is kept,
    the failing file has written nothing, and no later file is processed. *)
Theorem batch_stops_at_first_failure `{PyLib} (d : Cryptfile.direction)
    (self : Cryptfile.Cryptfile) (pre post : list string) (f : string)
    (ph : list byte) (w w0 w1 w2 : world) (e : exn) :
  Cryptfile.files self = (pre ++ f :: post)%list ->
  Security.getpass (Cryptfile.no_check d) w = (Ok ph, w0) ->
  py_for pre (Cryptfile.body d ph) w0 = (Ok tt, w1) ->
  Cryptfile.body d ph f w1 = (Raise e, w2) ->
  Cryptfile.run d self w = (Raise e, w2) /\ fs w2 = fs w1.
Proof.
  intros Hfiles Epass Epre Ef. split.
  - rewrite run_eq, Hfiles. erewrite bind_ok by exact Epass.
    by apply py_for_abort with (w1 := w1).
  - apply body_frame in Ef as [_ Hfs]. by apply (Hfs e).
Qed.

Lemma batch_stops_at_first_failure_witness :
  let self := Sample.batch ["b.txt"; "a.txt"; "c.txt"] in
  let w := Sample.batch_world in
  let w0 := snd (@Security.getpass Ref.lib false w) in
  let w1 := snd (py_for ["b.txt"] (@Cryptfile.encrypt_file_body Ref.lib Sample.correct) w0) in
  let w2 := snd (@Cryptfile.encrypt_file_body Ref.lib Sample.correct "a.txt" w1) in
  @Cryptfile.run Ref.lib Cryptfile.Encrypting self w
  = (Raise (FileNotFoundError "a.txt"), w2)
  /\ fs w2 = fs w1.
Proof.
  intros self w w0 w1 w2.
  apply (@batch_stops_at_first_failure Ref.lib Cryptfile.Encrypting
           self ["b.txt"] ["c.txt"] "a.txt" Sample.correct w w0 w1 w2
           (FileNotFoundError "a.txt"));
    vm_compute; reflexivity.
Defined.

(** C3, as stated, fails: with "a.txt" missing, the batch over b.txt,
    a.txt, c.txt ends with the exception of a.txt; b.txt was encrypted and
    c.txt, which is on disk, was never opened. *)
Lemma batch_fault_tolerance_cex :
  let r := @Cryptfile.encrypt_file Ref.lib
             (Sample.batch ["b.txt"; "a.txt"; "c.txt"]) Sample.batch_world in
  fst r = Raise (FileNotFoundError "a.txt")
  /\ fs (snd r) !! "b.txt.enc" <> None
  /\ fs Sample.batch_world !! "c.txt" <> None
  /\ fs (snd r) !! "c.txt.enc" = None
  /\ ~ In (EvOpen "c.txt" "rb") (log (snd r)).
Proof.
  split; [vm_compute; reflexivity|].
  split; [vm_compute; discriminate|].
  split; [vm_compute; discriminate|].
  split; [vm_compute; reflexivity|].
  vm_compute. intros Hin.
  repeat (destruct Hin as [Hin|Hin]; [discriminate|]). exact Hin.
Qed.

(** ** The passphrase *)

Lemma getpass_check_eq `{PyLib} (w : world) (a b : string) (rest : list string) :
  tty w = a :: b :: rest ->
  let asked := set_tty (emit (set_tty (emit w (EvPrompt "Enter Password: "))
                                (b :: rest))
                          (EvPrompt "Re-enter Password: ")) rest in
  Security.getpass false w =
  if String.eqb (SHA256_hexdigest (encode_utf8 a)) (SHA256_hexdigest (encode_utf8 b))
  then (Ok (encode_utf8 (SHA256_hexdigest (encode_utf8 a))), asked)
  else (Raise (SystemExit 1),
        emit asked (EvPrint (">>> Incorrect Password ! <<<" ++ LF))).
Proof.
  intros Htty asked. subst asked.
  unfold Security.getpass, getpass_getpass, py_bind. rewrite Htty. wsimpl.
  by destruct (String.eqb _ _).
Qed.

Lemma getpass_no_check_prompts `{PyLib} (w w' : world) (r : result (list byte)) :
  Security.getpass true w = (r, w') ->
  prompts (log w') = (prompts (log w) ++ ["Enter Password: "])%list.
Proof.
  unfold Security.getpass, getpass_getpass, py_bind, py_ret.
  destruct (tty w); intros [= _ <-]; by prompts_simpl.
Qed.

Lemma run_prompts `{PyLib} (d : Cryptfile.direction) (self : Cryptfile.Cryptfile)
    (w w0 : world) (r : result (list byte)) :
  Security.getpass (Cryptfile.no_check d) w = (r, w0) ->
  prompts (log (snd (Cryptfile.run d self w))) = prompts (log w0).
Proof.
  intros Epass. rewrite run_eq. unfold py_bind at 1. rewrite Epass.
  destruct r as [ph|e]; [|reflexivity].
  destruct (py_for _ _ _) as [r' w'] eqn:Efor.
  by apply py_for_prompts in Efor.
Qed.

(** C7, as the code has it. Encrypting asks for the passphrase twice; when
    the two entries agree the batch goes on with their digest, and when
    their digests differ it exits with code 1 having shown the two prompts
    and printed the complaint, with no file opened, no random byte drawn
    and no key derived.  In directory mode the prompt comes after the
    packing: [w] is then the world that the packing left, archives
    included, and the run ends in the same way, with nothing touched after
    the packing.  Decrypting asks once. *)
Theorem passphrase_confirmation_gate `{PyLib} `{PyOs} (self : Cryptfile.Cryptfile)
    (w : world) (a b : string) (rest : list string) :
  tty w = a :: b :: rest ->
  (a = b ->
   exists w0, Security.getpass false w
              = (Ok (encode_utf8 (SHA256_hexdigest (encode_utf8 a))), w0))
  /\ (SHA256_hexdigest (encode_utf8 a) <> SHA256_hexdigest (encode_utf8 b) ->
      exists w',
        Cryptfile.encrypt_file self w = (Raise (SystemExit 1), w')
        /\ fs w' = fs w /\ pos w' = pos w
        /\ scrypt_calls (log w') = scrypt_calls (log w)
        /\ log w' = (log w ++ [ EvPrompt "Enter Password: ";
                                EvPrompt "Re-enter Password: ";
                                EvPrint (">>> Incorrect Password ! <<<" ++ LF)%string ])%list)
  /\ (SHA256_hexdigest (encode_utf8 a) <> SHA256_hexdigest (encode_utf8 b) ->
      forall (dirs : Cryptfile.Cryptfile) (c : bool) (w0 : world)
             (archives : list string),
        Cryptfile.archive_all dirs c
          (emit w0 (EvPrint ("Archiving " ++ set_repr (Cryptfile.directories dirs)
                             ++ LF ++ LF)))
        = (Ok archives, w) ->
        exists w',
          Cryptfile.encrypt_dir dirs c w0 = (Raise (SystemExit 1), w')
          /\ fs w' = fs w /\ pos w' = pos w
          /\ scrypt_calls (log w') = scrypt_calls (log w)
          /\ log w' = (log w ++ [ EvPrompt "Enter Password: ";
                                  EvPrompt "Re-enter Password: ";
                                  EvPrint (">>> Incorrect Password ! <<<" ++ LF)%string ])%list)
  /\ prompts (log (snd (Cryptfile.encrypt_file self w)))
     = (prompts (log w) ++ ["Enter Password: "; "Re-enter Password: "])%list
  /\ prompts (log (snd (Cryptfile.decrypt_file self w)))
     = (prompts (log w) ++ ["Enter Password: "])%list.
Proof.
  intros Htty. pose proof (getpass_check_eq w a b rest Htty) as Epass.
  cbv zeta in Epass. split; [|split; [|split; [|split]]].
  - intros <-. rewrite String.eqb_refl in Epass. eauto.
  - intros Hne. apply String.eqb_neq in Hne. rewrite Hne in Epass.
    eexists. split.
    + unfold Cryptfile.encrypt_file. by apply bind_raise.
    + wsimpl. rewrite <- !app_assoc. repeat split.
      unfold scrypt_calls. rewrite List.filter_app. simpl.
      by rewrite app_nil_r.
  - intros Hne dirs c w0 archives Earch.
    apply String.eqb_neq in Hne. rewrite Hne in Epass.
    eexists. split.
    + unfold Cryptfile.encrypt_dir.
      erewrite bind_ok by reflexivity.
      erewrite bind_ok by exact Earch.
      apply bind_raise. unfold Cryptfile.encrypt_file. by apply bind_raise.
    + wsimpl. rewrite <- !app_assoc. repeat split.
      unfold scrypt_calls. rewrite List.filter_app. simpl.
      by rewrite app_nil_r.
  - destruct (Security.getpass false w) as [r w0] eqn:Eenc.
    change (Cryptfile.encrypt_file self w)
      with (Cryptfile.run Cryptfile.Encrypting self w).
    rewrite (run_prompts Cryptfile.Encrypting self w w0 r Eenc).
    destruct (String.eqb _ _); injection Epass as _ ->;
      prompts_simpl; by rewrite <- ?app_assoc.
  - destruct (Security.getpass true w) as [r w0] eqn:Edec.
    change (Cryptfile.decrypt_file self w)
      with (Cryptfile.run Cryptfile.Decrypting self w).
    rewrite (run_prompts Cryptfile.Decrypting self w w0 r Edec).
    by apply getpass_no_check_prompts in Edec.
Qed.

Lemma passphrase_confirmation_gate_witness :
  let dirs := {| Cryptfile.files := []; Cryptfile.directories := ["docs"] |} in
  let w0 := Sample.mismatch_world in
  let w := snd (@Cryptfile.archive_all RefOs.os dirs false
                  (emit w0 (EvPrint ("Archiving " ++ @set_repr RefOs.os ["docs"]
                                     ++ LF ++ LF)))) in
  let self := Sample.batch ["hello.txt"] in
  let complaint := [ EvPrompt "Enter Password: "; EvPrompt "Re-enter Password: ";
                     EvPrint (">>> Incorrect Password ! <<<" ++ LF)%string ] in
  (exists w',
      @Cryptfile.encrypt_file Ref.lib self w = (Raise (SystemExit 1), w')
      /\ fs w' = fs w /\ pos w' = pos w
      /\ scrypt_calls (log w') = scrypt_calls (log w)
      /\ log w' = (log w ++ complaint)%list)
  /\ (exists w',
        @Cryptfile.encrypt_dir Ref.lib RefOs.os dirs false w0
        = (Raise (SystemExit 1), w')
        /\ fs w' = fs w /\ pos w' = pos w
        /\ scrypt_calls (log w') = scrypt_calls (log w)
        /\ log w' = (log w ++ complaint)%list)
  /\ prompts (log (snd (@Cryptfile.decrypt_file Ref.lib self w)))
     = (prompts (log w) ++ ["Enter Password: "])%list.
Proof.
  intros dirs w0 w self complaint.
  assert (Htty : tty w = ["correct"; "wrong"]) by (vm_compute; reflexivity).
  assert (Hne : @SHA256_hexdigest Ref.lib (@encode_utf8 Ref.lib "correct")
                <> @SHA256_hexdigest Ref.lib (@encode_utf8 Ref.lib "wrong"))
    by (vm_compute; discriminate).
  destruct (@passphrase_confirmation_gate Ref.lib RefOs.os self w
              "correct" "wrong" [] Htty) as (_ & Hfile & Hdir & _ & Hdec).
  split; [exact (Hfile Hne)|]. split; [|exact Hdec].
  apply (Hdir Hne dirs false w0 ["docs.tar"]). vm_compute. reflexivity.
Defined.

(** C7, as stated, fails in directory mode: with two different passphrases
    typed, [encrypt_dir] on the directory "docs" exits with code 1, and
    the archive "docs.tar", which was not there before, has been written
    before the passphrase was asked and is still there. *)
Lemma passphrase_gate_directory_cex :
  let self := {| Cryptfile.files := []; Cryptfile.directories := ["docs"] |} in
  let w := Sample.mismatch_world in
  let r := @Cryptfile.encrypt_dir Ref.lib RefOs.os self false w in
  fst r = Raise (SystemExit 1)
  /\ fs w !! "docs.tar" = None
  /\ fs (snd r) !! "docs.tar" = Some (Sample.bytes_of "archive of docs")
  /\ log (snd r)
     = [ EvPrint ("Archiving " ++ @set_repr RefOs.os ["docs"] ++ LF ++ LF);
         EvOpen "docs.tar" "wb";
         EvPrompt "Enter Password: ";
         EvPrompt "Re-enter Password: ";
         EvPrint (">>> Incorrect Password ! <<<" ++ LF) ].
Proof.
  repeat (split; [vm_compute; reflexivity|]). vm_compute. reflexivity.
Qed.

(** ** The name of the decrypted file *)

(** [_rename] does what its docstring says. *)
Lemma rename_eq (file : string) (w : world) :
  Utils._rename file w =
  if endswith file ".enc" then (Ok (drop_last 4 file), w)
  else (Ok (file ++ ".cryptfile"),
        emit (emit w (EvPrint ("[*] It seems you have changed filename after encryption."
                               ++ LF)))
          (EvPrint ("[*] Decrypted file will be saved as `" ++ (file ++ ".cryptfile")
                    ++ "`." ++ LF))).
Proof. unfold Utils._rename. by destruct (endswith file ".enc"). Qed.

(** The loop body of [decrypt_file] writes to the name stored in the
    container; the name of the artifact plays no part and [_rename] is
    never called. *)
Lemma decrypt_file_body_writes `{PyLib} (ph : list byte) (file path : string)
    (cc : CipherConfig) (data : list byte) (w wA wB : world) :
  Utils.open_file file true w = (Ok cc, wA) ->
  Security.decrypt (Security.__init__ ph) cc
    (emit wA (EvPrint (LF ++ "Decrypting [ " ++ file ++ " ]" ++ CR)))
  = (Ok data, wB) ->
  os_fspath (filename cc) = Ok path ->
  exists w',
    Cryptfile.decrypt_file_body ph file w = (Ok tt, w')
    /\ fs w' = <[path := data]> (fs w)
    /\ prints (log w')
       = (prints (log w)
          ++ [ (LF ++ "Decrypting [ " ++ file ++ " ]" ++ CR)%string;
               ("Decrypting [ " ++ file ++ " ] " ++ TAB
                ++ " [+] Completed" ++ LF)%string ])%list.
Proof.
  intros Eopen Edec Epath. eexists. unfold Cryptfile.decrypt_file_body.
  erewrite bind_ok by exact Eopen.
  erewrite bind_ok by reflexivity.
  erewrite bind_ok by exact Edec.
  unfold Utils.save_file, py_lift, write_file, print, py_bind. rewrite Epath.
  split; [reflexivity|]. wsimpl.
  rewrite open_file_pickled_eq in Eopen. injection Eopen as _ <-.
  destruct (scrypt_kdf (PyStr (py_str (PyBytes ph))) (PyStr (py_str (salt cc)))
              32 (2 ^ 20) 8 1) as [key|e] eqn:Ekey.
  - rewrite (decrypt_eq _ _ _ _ Ekey) in Edec. injection Edec as _ <-. wsimpl.
    split; [done|]. unfold prints. rewrite !flat_map_app. simpl.
    by rewrite !app_nil_r, <- app_assoc.
  - rewrite (decrypt_kdf_raise _ _ _ _ Ekey) in Edec. discriminate.
Qed.

(** C4, on the code. The artifact "renamed.bin" does not end in ".enc".
    Decrypting it succeeds, but nothing is written under
    "renamed.bin.cryptfile": the plaintext goes to the name stored in the
    container, "hello.txt", replacing the unrelated file of that name, and
    only the two progress lines are printed.  [_rename], which would have
    chosen "renamed.bin.cryptfile", is not called. *)
Theorem decrypt_file_ignores_artifact_name :
  let r := @Cryptfile.decrypt_file Ref.lib (Sample.batch ["renamed.bin"])
             Sample.renamed_world in
  endswith "renamed.bin" ".enc" = false
  /\ fst r = Ok tt
  /\ fs (snd r) !! "renamed.bin.cryptfile" = None
  /\ fs Sample.renamed_world !! "hello.txt" = Some (Sample.bytes_of "unrelated")
  /\ fs (snd r) !! "hello.txt" = Some (Sample.bytes_of "hi")
  /\ prints (log (snd r))
     = [ LF ++ "Decrypting [ renamed.bin ]" ++ CR;
         "Decrypting [ renamed.bin ] " ++ TAB ++ " [+] Completed" ++ LF ]
  /\ fst (Utils._rename "renamed.bin" Sample.renamed_world)
     = Ok "renamed.bin.cryptfile".
Proof.
  repeat (split; [vm_compute; reflexivity|]). vm_compute. reflexivity.
Qed.

(** * Further properties *)

(** ** Strings *)

Lemma string_length_app (s t : string) :
  String.length (s ++ t) = (String.length s + String.length t)%nat.
Proof. induction s as [|c s IH]; simpl; [done|by rewrite IH]. Qed.

Lemma substring_all (t : string) : substring 0 (String.length t) t = t.
Proof. induction t as [|c t IH]; simpl; [done|by rewrite IH]. Qed.

Lemma substring_app_suffix (s t : string) (m : nat) :
  substring (String.length s) m (s ++ t) = substring 0 m t.
Proof. induction s as [|c s IH]; simpl; [done|exact IH]. Qed.

Lemma substring_app_prefix (s t : string) :
  substring 0 (String.length s) (s ++ t) = s.
Proof.
  induction s as [|c s IH]; simpl; [by destruct t|by rewrite IH].
Qed.

Lemma substring_length (s : string) (k : nat) :
  (k <= String.length s)%nat -> String.length (substring 0 k s) = k.
Proof.
  revert k. induction s as [|c s IH]; intros [|k] Hk; simpl in *; try done; try lia.
  rewrite IH; [done|lia].
Qed.

Lemma substring_split (s : string) (k : nat) :
  (k <= String.length s)%nat ->
  (substring 0 k s ++ substring k (String.length s - k) s)%string = s.
Proof.
  revert k. induction s as [|c s IH]; intros [|k] Hk; simpl in *; try done; try lia.
  - by rewrite substring_all.
  - change (String c (substring 0 k s ++ substring k (String.length s - k) s)
            = String c s).
    f_equal. apply IH. lia.
Qed.

Lemma endswith_app (s suffix : string) : endswith (s ++ suffix) suffix = true.
Proof.
  unfold endswith. rewrite string_length_app.
  replace (String.length s + String.length suffix - String.length suffix)%nat
    with (String.length s) by lia.
  rewrite substring_app_suffix, substring_all, String.eqb_refl.
  rewrite andb_true_r. apply Nat.leb_le. lia.
Qed.

Lemma endswith_split (s suffix : string) :
  endswith s suffix = true ->
  (String.length suffix <= String.length s)%nat
  /\ (substring 0 (String.length s - String.length suffix) s ++ suffix)%string = s.
Proof.
  unfold endswith. intros [Hle Heq]%andb_true_iff.
  apply Nat.leb_le in Hle. apply String.eqb_eq in Heq. split; [done|].
  pose proof (substring_split s (String.length s - String.length suffix))
    as Hsplit.
  replace (String.length s - (String.length s - String.length suffix))%nat
    with (String.length suffix) in Hsplit by lia.
  rewrite Heq in Hsplit. apply Hsplit. lia.
Qed.

(** ** Utils._rename *)

(** X1. [_rename] undoes the naming of [save_cc]: the name of the artifact
    of [file], which is [file] followed by ".enc", is renamed to [file], and
    nothing is printed. *)
Theorem rename_inverts_enc_suffix (file : string) (w : world) :
  Utils._rename (file ++ ".enc") w = (Ok file, w).
Proof.
  rewrite rename_eq, endswith_app. unfold drop_last.
  rewrite string_length_app. simpl String.length.
  replace (String.length file + 4 - 4)%nat with (String.length file) by lia.
  by rewrite substring_app_prefix.
Qed.

(** X2. [_rename] never fails and never returns the name it was given.
    For a name ending in ".enc" the result followed by ".enc" is that name
    and the world is unchanged; for any other name the result is the name
    followed by ".cryptfile", and exactly the two notice lines are
    printed. *)
Theorem rename_never_returns_its_argument (file : string) (w : world) :
  exists name w',
    Utils._rename file w = (Ok name, w')
    /\ name <> file
    /\ (endswith file ".enc" = true ->
        (name ++ ".enc")%string = file /\ w' = w)
    /\ (endswith file ".enc" = false ->
        name = (file ++ ".cryptfile")%string
        /\ fs w' = fs w
        /\ prints (log w')
           = (prints (log w)
              ++ [ ("[*] It seems you have changed filename after encryption."
                    ++ LF)%string;
                   ("[*] Decrypted file will be saved as `"
                    ++ (file ++ ".cryptfile") ++ "`." ++ LF)%string ])%list).
Proof.
  rewrite rename_eq. destruct (endswith file ".enc") eqn:E.
  - apply endswith_split in E as [Hlen Hsplit]. simpl String.length in *.
    exists (drop_last 4 file), w. split; [done|]. split; [|split; [done|done]].
    intros Heq. apply (f_equal String.length) in Heq.
    unfold drop_last in Heq. rewrite substring_length in Heq; lia.
  - eexists. eexists. split; [reflexivity|]. split; [|split; [done|]].
    + intros Heq. apply (f_equal String.length) in Heq.
      rewrite string_length_app in Heq. simpl in Heq. lia.
    + intros _. split; [done|]. split; [done|]. wsimpl. unfold prints.
      rewrite !flat_map_app. simpl. by rewrite <- app_assoc.
Qed.

(** ** What a batch writes *)

Lemma getpass_frame `{PyLib} (no_check : bool) (w w' : world)
    (r : result (list byte)) :
  Security.getpass no_check w = (r, w') ->
  fs w' = fs w /\ pos w' = pos w /\ tape w' = tape w.
Proof.
  unfold Security.getpass, getpass_getpass, print, sys_exit, py_raise, py_bind,
    py_ret.
  destruct (tty w) as [|a [|b rest]], no_check; wsimpl;
    try destruct (String.eqb _ _); by intros [= _ <-].
Qed.

Lemma encrypt_file_body_fs `{PyLib} (ph : list byte) (file p : string)
    (w w' : world) (r : result unit) :
  Cryptfile.encrypt_file_body ph file w = (r, w') ->
  p <> (file ++ ".enc")%string ->
  fs w' !! p = fs w !! p.
Proof.
  unfold Cryptfile.encrypt_file_body.
  unfold py_bind at 1. rewrite open_file_raw_eq.
  destruct (fs w !! file) as [data|]; [|by intros [= _ <-]].
  unfold py_bind at 1. unfold print at 1.
  unfold py_bind at 1.
  destruct (Security.encrypt _ _ _) as [[cc|e] w1] eqn:Eenc;
    apply encrypt_frame in Eenc as [Efs _]; wsimpl.
  - unfold py_bind, Utils.save_cc, write_file, print.
    intros [= _ <-] Hp. wsimpl. rewrite Efs.
    by apply lookup_insert_ne.
  - intros [= _ <-] _. by rewrite Efs.
Qed.

Lemma py_for_encrypt_fs `{PyLib} (ph : list byte) (names : list string)
    (p : string) (w w' : world) (r : result unit) :
  py_for names (Cryptfile.encrypt_file_body ph) w = (r, w') ->
  (forall f, In f names -> p <> (f ++ ".enc")%string) ->
  fs w' !! p = fs w !! p.
Proof.
  revert w. induction names as [|f names IH]; intros w; simpl.
  - by intros [= _ <-].
  - unfold py_bind.
    destruct (Cryptfile.encrypt_file_body ph f w) as [[[]|e] w1] eqn:Ef;
      intros E Hp.
    + rewrite (IH _ E) by (intros g Hg; apply Hp; by right).
      apply (encrypt_file_body_fs _ _ _ _ _ _ Ef). apply Hp. by left.
    + injection E as _ <-.
      apply (encrypt_file_body_fs _ _ _ _ _ _ Ef). apply Hp. by left.
Qed.

(** X3. Whatever happens during the batch, [encrypt_file] leaves every
    path alone that is not the name of a batch file followed by ".enc":
    the files it reads, and all others, keep their content, and nothing is
    deleted. *)
Theorem encrypt_file_writes_only_artifacts `{PyLib} (self : Cryptfile.Cryptfile)
    (w : world) (p : string) :
  (forall f, In f (Cryptfile.files self) -> p <> (f ++ ".enc")%string) ->
  fs (snd (Cryptfile.encrypt_file self w)) !! p = fs w !! p.
Proof.
  intros Hp. unfold Cryptfile.encrypt_file, py_bind.
  destruct (Security.getpass false w) as [[ph|e] w0] eqn:Epass;
    apply getpass_frame in Epass as (Efs & _).
  - destruct (py_for _ _ _) as [r w'] eqn:Efor. simpl.
    rewrite (py_for_encrypt_fs _ _ _ _ _ _ Efor Hp). by rewrite Efs.
  - simpl. by rewrite Efs.
Qed.

Lemma encrypt_file_writes_only_artifacts_witness :
  fs (snd (@Cryptfile.encrypt_file Ref.lib (Sample.batch ["b.txt"; "a.txt"; "c.txt"])
             Sample.batch_world)) !! "b.txt"
  = fs Sample.batch_world !! "b.txt".
Proof.
  apply (@encrypt_file_writes_only_artifacts Ref.lib).
  intros f [<-|[<-|[<-|[]]]]; discriminate.
Defined.
(** ** The small instances meet the further facts *)

Section RefFacts.
Local Open Scope list_scope.

Lemma ref_get_pos_put (p : positive) (rest : list byte) :
  Ref.get_pos (Ref.put_pos p ++ rest) = Some (p, rest).
Proof. induction p as [p IH|p IH|]; simpl; by rewrite ?IH. Qed.

Lemma ref_get_nat_put (n : nat) (rest : list byte) :
  Ref.get_nat (Ref.put_nat n ++ rest) = Some (n, rest).
Proof.
  unfold Ref.get_nat, Ref.put_nat. rewrite ref_get_pos_put.
  by rewrite SuccNat2Pos.pred_id.
Qed.

Lemma list_byte_of_string_length (s : string) :
  length (list_byte_of_string s) = String.length s.
Proof.
  unfold list_byte_of_string. rewrite length_map.
  induction s as [|c s IH]; simpl; [done|by rewrite IH].
Qed.

Lemma ref_get_val_str (fuel : nat) (s : string) (rest : list byte) :
  Ref.get_val (S fuel) (Ref.ref_dumps (PyStr s) ++ rest) = Some (PyStr s, rest).
Proof.
  simpl. rewrite <- app_assoc, ref_get_nat_put.
  rewrite length_app, list_byte_of_string_length.
  replace (String.length s <=? String.length s + length rest)%nat with true
    by (symmetry; apply Nat.leb_le; lia).
  rewrite <- list_byte_of_string_length.
  rewrite take_app_length, drop_app_length.
  by rewrite string_of_list_byte_of_string.
Qed.

Lemma ref_get_val_bytes (fuel : nat) (b rest : list byte) :
  Ref.get_val (S fuel) (Ref.ref_dumps (PyBytes b) ++ rest) = Some (PyBytes b, rest).
Proof.
  simpl. rewrite <- app_assoc, ref_get_nat_put.
  rewrite length_app.
  replace (length b <=? length b + length rest)%nat with true
    by (symmetry; apply Nat.leb_le; lia).
  by rewrite take_app_length, drop_app_length.
Qed.

Lemma ref_get_val_flat (fuel : nat) (v : pyval) (rest : list byte) :
  RefPickle.flat v ->
  Ref.get_val (S fuel) (Ref.ref_dumps v ++ rest) = Some (v, rest).
Proof.
  destruct v; try done; intros _;
    [apply ref_get_val_str | apply ref_get_val_bytes].
Qed.

Lemma ref_read_entries_flat (fuel : nat) (items acc : list (pyval * pyval))
    (rest : list byte) :
  Forall (fun kv => RefPickle.flat (fst kv) /\ RefPickle.flat (snd kv)) items ->
  RefPickle.read_entries (S fuel) (length items)
    (RefPickle.dump_entries items ++ rest) acc
  = Some (PyDict (rev acc ++ items), rest).
Proof.
  intros Hflat. revert acc.
  induction Hflat as [|[k x] items [Hk Hx] _ IH]; intros acc.
  - simpl. by rewrite app_nil_r.
  - cbn [RefPickle.dump_entries length]. unfold RefPickle.read_entries.
    fold (RefPickle.read_entries (S fuel)).
    rewrite <- !app_assoc.
    rewrite (ref_get_val_flat _ _ _ Hk), (ref_get_val_flat _ _ _ Hx).
    rewrite IH. simpl. by rewrite <- app_assoc.
Qed.

Lemma ref_loads_flat_dict (items : list (pyval * pyval)) :
  Forall (fun kv => RefPickle.flat (fst kv) /\ RefPickle.flat (snd kv)) items ->
  items <> [] ->
  Ref.ref_loads (Ref.ref_dumps (PyDict items)) = Ok (PyDict items).
Proof.
  intros Hflat Hne.
  change (Ref.ref_dumps (PyDict items))
    with ("068"%byte :: Ref.put_nat (length items) ++ RefPickle.dump_entries items).
  unfold Ref.ref_loads.
  destruct items as [|[k x] items]; [done|].
  set (body := Ref.put_nat _ ++ _).
  assert (Hlen : exists n, length body = S n).
  { subst body. unfold Ref.put_nat. destruct (Ref.put_pos _) eqn:E.
    - by destruct (Pos.of_succ_nat _).
    - simpl. eauto. }
  destruct Hlen as [n Hn]. cbn [length]. rewrite Hn.
  change (Ref.get_val (S (S n)) ("068"%byte :: body))
    with (match Ref.get_nat body with
          | Some (c, rest) => RefPickle.read_entries (S n) c rest []
          | None => None
          end).
  subst body. rewrite <- (app_nil_r (RefPickle.dump_entries _)).
  rewrite ref_get_nat_put, ref_read_entries_flat by done. reflexivity.
Qed.

Lemma ref_pickle_inverts_containers : @pickle_inverts_containers Ref.lib.
Proof.
  intros ct s tg n f. apply ref_loads_flat_dict; [|done].
  repeat (apply List.Forall_cons; [by split|]). apply List.Forall_nil.
Qed.

Lemma ref_fspath_of_str : @fspath_of_str Ref.lib.
Proof. intros path. reflexivity. Qed.

Lemma ref_set_iter_spec : @set_iter_spec RefOs.os.
Proof.
  intros l. split; [apply NoDup_remove_dups|].
  intros x. rewrite <- !list_elem_of_In. apply elem_of_remove_dups.
Qed.

End RefFacts.

(** ** One file through a batch *)

Lemma scrypt_calls_app (l l' : list event) :
  scrypt_calls (l ++ l') = (scrypt_calls l + scrypt_calls l')%nat.
Proof. unfold scrypt_calls. by rewrite List.filter_app, length_app. Qed.

Ltac calls_simpl :=
  wsimpl; rewrite ?scrypt_calls_app in *;
  cbn [scrypt_calls List.filter length] in *.

Lemma open_file_raw_ok `{PyLib} (file : string) (data : list byte) (w : world) :
  fs w !! file = Some data ->
  Utils.open_file file false w = (Ok data, emit w (EvOpen file "rb")).
Proof.
  intros Hfile. rewrite open_file_raw_eq. unfold Utils.opened. by rewrite Hfile.
Qed.

(** The loop body of [encrypt_file] on a file that exists. *)
Lemma encrypt_file_body_ok `{PyLib} (ph : list byte) (file : string)
    (data : list byte) (w : world) :
  scrypt_derives 32 (2 ^ 20) 8 1 -> gcm_seals -> gcm_opens ->
  fs w !! file = Some data ->
  exists ct s tg n w',
    let cc := {| ciphertext := PyBytes ct; salt := PyBytes s; tag := PyBytes tg;
                 nonce := PyBytes n; filename := PyStr file |} in
    Cryptfile.encrypt_file_body ph file w = (Ok tt, w')
    /\ fs w' = <[(file ++ ".enc")%string := pickle_dumps (__dict__ cc)]> (fs w)
    /\ (forall w2, exists w3,
          Security.decrypt (Security.__init__ ph) cc w2 = (Ok data, w3))
    /\ tty w' = tty w.
Proof.
  intros Hkdf Hseal Hopen Hfile.
  destruct (Hkdf (py_str (PyBytes ph))
              (py_str (PyBytes (map (tape w) (seq (pos w) 32)))))
    as (key & Ekey & Lkey).
  destruct (Hseal key (map (tape w) (seq (pos w + 32) 16)) data)
    as (ct & tg & Eseal); [exact Lkey | apply random_bytes_length |].
  exists ct, (map (tape w) (seq (pos w) 32)), tg,
    (map (tape w) (seq (pos w + 32) 16)).
  eexists. cbv zeta. split; [|split; [|split]].
  - unfold Cryptfile.encrypt_file_body.
    erewrite bind_ok by exact (open_file_raw_ok _ _ _ Hfile).
    erewrite bind_ok by reflexivity.
    erewrite bind_ok
      by (match goal with
          | |- Security.encrypt _ _ ?w0 = _ =>
              rewrite (encrypt_eq ph data w0 key Ekey)
          end; wsimpl; rewrite Eseal; reflexivity).
    erewrite bind_ok by (rewrite save_cc_eq; reflexivity).
    reflexivity.
  - reflexivity.
  - intros w2. eexists.
    erewrite decrypt_eq by (wsimpl; exact Ekey). unfold cipher_nonce_in. wsimpl.
    by rewrite (Hopen _ _ _ _ _ Eseal).
  - reflexivity.
Qed.

(** A batch of one file that exists, with the passphrase typed twice. *)
Lemma encrypt_file_single `{PyLib} (file : string) (data : list byte)
    (w : world) (a : string) (rest : list string) :
  scrypt_derives 32 (2 ^ 20) 8 1 -> gcm_seals -> gcm_opens ->
  fs w !! file = Some data ->
  tty w = a :: a :: rest ->
  exists ct s tg n w1,
    let cc := {| ciphertext := PyBytes ct; salt := PyBytes s; tag := PyBytes tg;
                 nonce := PyBytes n; filename := PyStr file |} in
    Cryptfile.encrypt_file
      {| Cryptfile.files := [file]; Cryptfile.directories := [] |} w
    = (Ok tt, w1)
    /\ fs w1 = <[(file ++ ".enc")%string := pickle_dumps (__dict__ cc)]> (fs w)
    /\ (forall w2, exists w3,
          Security.decrypt
            (Security.__init__ (encode_utf8 (SHA256_hexdigest (encode_utf8 a))))
            cc w2 = (Ok data, w3))
    /\ tty w1 = rest.
Proof.
  intros Hkdf Hseal Hopen Hfile Htty.
  pose proof (getpass_check_eq w a a rest Htty) as Epass. cbv zeta in Epass.
  rewrite String.eqb_refl in Epass.
  destruct (encrypt_file_body_ok
              (encode_utf8 (SHA256_hexdigest (encode_utf8 a))) file data
              (set_tty (emit (set_tty (emit w (EvPrompt "Enter Password: "))
                                (a :: rest))
                          (EvPrompt "Re-enter Password: ")) rest)
              Hkdf Hseal Hopen Hfile)
    as (ct & s & tg & n & w1 & Ebody & Efs & Edec & Etty).
  exists ct, s, tg, n, w1. cbv zeta in *. split; [|by repeat split].
  unfold Cryptfile.encrypt_file. erewrite bind_ok by exact Epass.
  cbn [Cryptfile.files py_for]. erewrite bind_ok by exact Ebody. reflexivity.
Qed.

(** A batch of one artifact that holds the container [cc]. *)
Lemma decrypt_file_single `{PyLib} (art path : string) (cc : CipherConfig)
    (data : list byte) (w : world) (a : string) (rest : list string) :
  pickle_inverts (__dict__ cc) ->
  os_fspath (filename cc) = Ok path ->
  (forall w2, exists w3,
      Security.decrypt
        (Security.__init__ (encode_utf8 (SHA256_hexdigest (encode_utf8 a))))
        cc w2 = (Ok data, w3)) ->
  fs w !! art = Some (pickle_dumps (__dict__ cc)) ->
  tty w = a :: rest ->
  exists w3,
    Cryptfile.decrypt_file
      {| Cryptfile.files := [art]; Cryptfile.directories := [] |} w
    = (Ok tt, w3)
    /\ fs w3 = <[path := data]> (fs w)
    /\ tty w3 = rest.
Proof.
  intros Hp Hpath Edec Hart Htty. unfold pickle_inverts in Hp.
  assert (Epass : Security.getpass true w
                  = (Ok (encode_utf8 (SHA256_hexdigest (encode_utf8 a))),
                     set_tty (emit w (EvPrompt "Enter Password: ")) rest)).
  { unfold Security.getpass, getpass_getpass, py_bind. by rewrite Htty. }
  assert (Eopen : Utils.open_file art true
                    (set_tty (emit w (EvPrompt "Enter Password: ")) rest)
                  = (Ok cc, emit (set_tty (emit w (EvPrompt "Enter Password: ")) rest)
                              (EvOpen art "rb"))).
  { rewrite open_file_pickled_eq. wsimpl. rewrite Hart.
    by rewrite Hp, from_kwargs_dict. }
  destruct (Edec (emit (emit (set_tty (emit w (EvPrompt "Enter Password: ")) rest)
                          (EvOpen art "rb"))
                    (EvPrint (LF ++ "Decrypting [ " ++ art ++ " ]" ++ CR))))
    as [w3 Edec3].
  destruct (decrypt_file_body_writes _ art path cc data _ _ w3 Eopen Edec3 Hpath)
    as (w4 & Ebody & Efs & _).
  exists w4. split; [|split].
  - unfold Cryptfile.decrypt_file. erewrite bind_ok by exact Epass.
    cbn [Cryptfile.files py_for]. erewrite bind_ok by exact Ebody. reflexivity.
  - by rewrite Efs.
  - revert Ebody. unfold Cryptfile.decrypt_file_body.
    erewrite bind_ok by exact Eopen. erewrite bind_ok by reflexivity.
    erewrite bind_ok by exact Edec3.
    unfold Utils.save_file, py_lift, write_file, print, py_bind. rewrite Hpath.
    intros [= <-]. wsimpl.
    destruct (scrypt_kdf (PyStr (py_str (PyBytes
                (encode_utf8 (SHA256_hexdigest (encode_utf8 a))))))
                (PyStr (py_str (salt cc))) 32 (2 ^ 20) 8 1) as [key|e] eqn:Ekey.
    + rewrite (decrypt_eq _ _ _ _ Ekey) in Edec3. by injection Edec3 as _ <-.
    + rewrite (decrypt_kdf_raise _ _ _ _ Ekey) in Edec3. discriminate.
Qed.

(** X4. A file encrypted by [encrypt_file] and decrypted by [decrypt_file]
    with the same passphrase comes back under its name with its content:
    the first run leaves the artifact, and in any later world that holds
    this artifact the second run writes the original bytes to the original
    name and changes no other file. *)
Theorem encrypt_file_then_decrypt_file `{PyLib} (file : string)
    (data : list byte) (w : world) (a : string) (rest : list string) :
  scrypt_derives 32 (2 ^ 20) 8 1 -> gcm_seals -> gcm_opens ->
  pickle_inverts_containers -> fspath_of_str ->
  fs w !! file = Some data ->
  tty w = a :: a :: rest ->
  exists w1,
    Cryptfile.encrypt_file
      {| Cryptfile.files := [file]; Cryptfile.directories := [] |} w
    = (Ok tt, w1)
    /\ forall w2 rest2,
         fs w2 !! (file ++ ".enc")%string = fs w1 !! (file ++ ".enc")%string ->
         tty w2 = a :: rest2 ->
         exists w3,
           Cryptfile.decrypt_file
             {| Cryptfile.files := [(file ++ ".enc")%string];
                Cryptfile.directories := [] |} w2
           = (Ok tt, w3)
           /\ fs w3 = <[file := data]> (fs w2).
Proof.
  intros Hkdf Hseal Hopen Hpickle Hpath Hfile Htty.
  destruct (encrypt_file_single file data w a rest Hkdf Hseal Hopen Hfile Htty)
    as (ct & s & tg & n & w1 & Eenc & Efs & Edec & _).
  cbv zeta in *. exists w1. split; [exact Eenc|].
  intros w2 rest2 Hart Htty2. rewrite Efs, lookup_insert_eq in Hart.
  destruct (decrypt_file_single (file ++ ".enc") file _ data w2 a rest2
              (Hpickle ct s tg n file) (Hpath file) Edec Hart Htty2)
    as (w3 & Edecf & Efs3 & _).
  by exists w3.
Qed.

Lemma encrypt_file_then_decrypt_file_witness :
  exists w1,
    @Cryptfile.encrypt_file Ref.lib
      {| Cryptfile.files := ["hello.txt"]; Cryptfile.directories := [] |}
      (Ref.world0 [("hello.txt", Sample.bytes_of "hi")] 3 ["correct"; "correct"])
    = (Ok tt, w1)
    /\ forall w2 rest2,
         fs w2 !! ("hello.txt" ++ ".enc")%string
         = fs w1 !! ("hello.txt" ++ ".enc")%string ->
         tty w2 = "correct" :: rest2 ->
         exists w3,
           @Cryptfile.decrypt_file Ref.lib
             {| Cryptfile.files := [("hello.txt" ++ ".enc")%string];
                Cryptfile.directories := [] |} w2
           = (Ok tt, w3)
           /\ fs w3 = <["hello.txt" := Sample.bytes_of "hi"]> (fs w2).
Proof.
  apply (@encrypt_file_then_decrypt_file Ref.lib "hello.txt"
           (Sample.bytes_of "hi") _ "correct" []).
  - apply ref_scrypt_derives.
  - apply ref_gcm_seals.
  - apply ref_gcm_opens.
  - apply ref_pickle_inverts_containers.
  - apply ref_fspath_of_str.
  - reflexivity.
  - reflexivity.
Defined.

(** ** The command line *)

Lemma bind_ret_unit (m : py unit) (w : world) :
  py_bind m (fun _ => py_ret tt) w = m w.
Proof. unfold py_bind, py_ret. by destruct (m w) as [[[]|e] w']. Qed.

Lemma set_iter_single `{PyOs} (f : string) :
  set_iter_spec -> set_iter [f] = [f].
Proof.
  intros Hspec. destruct (Hspec [f]) as [Hnodup Hin].
  destruct (set_iter [f]) as [|x [|y l]] eqn:E.
  - exfalso. apply (proj2 (Hin f)). by left.
  - f_equal. destruct (proj1 (Hin x)) as [->|[]]; [by left|done].
  - exfalso.
    destruct (proj1 (Hin x)) as [<-|[]]; [by left|].
    destruct (proj1 (Hin y)) as [<-|[]]; [right; by left|].
    apply NoDup_cons in Hnodup as [Hx _]. apply Hx. by left.
Qed.

Lemma os_remove_ok (path : string) (content : list byte) (w : world) :
  fs w !! path = Some content ->
  os_remove path w = (Ok tt, set_fs w (delete path (fs w))).
Proof. intros E. unfold os_remove. by rewrite E. Qed.

Lemma os_remove_missing (path : string) (w : world) :
  fs w !! path = None ->
  os_remove path w = (Raise (FileNotFoundError path), w).
Proof. intros E. unfold os_remove. by rewrite E. Qed.

Lemma process_encrypt_only `{PyLib} `{PyOs} (files : list string) (rm c : bool)
    (w : world) :
  Main.process {| Main.encrypt := Some files; Main.decrypt := None;
                  Main.encrypt_dir := None; Main.decrypt_dir := None;
                  Main.remove := rm; Main.compress := c |} w
  = py_bind
      (Cryptfile.encrypt_file
         {| Cryptfile.files := set_iter files; Cryptfile.directories := [] |})
      (fun _ => Main.py_when rm (py_for files os_remove)) w.
Proof.
  unfold Main.process. cbn [Main.encrypt Main.decrypt Main.encrypt_dir
                            Main.decrypt_dir Main.remove].
  unfold py_bind at 1.
  by destruct (py_bind (Cryptfile.encrypt_file _) _ w) as [[[]|e] w'].
Qed.

Lemma process_decrypt_only `{PyLib} `{PyOs} (files : list string) (rm c : bool)
    (w : world) :
  Main.process {| Main.encrypt := None; Main.decrypt := Some files;
                  Main.encrypt_dir := None; Main.decrypt_dir := None;
                  Main.remove := rm; Main.compress := c |} w
  = py_bind
      (Cryptfile.decrypt_file
         {| Cryptfile.files := set_iter files; Cryptfile.directories := [] |})
      (fun _ => Main.py_when rm (py_for files os_remove)) w.
Proof.
  unfold Main.process. cbn [Main.encrypt Main.decrypt Main.encrypt_dir
                            Main.decrypt_dir Main.remove].
  unfold py_bind at 1. unfold py_ret at 1. unfold py_bind at 1.
  by destruct (py_bind (Cryptfile.decrypt_file _) _ w) as [[[]|e] w'].
Qed.

Lemma string_app_neq (s t : string) : t <> "" -> s <> (s ++ t)%string.
Proof.
  intros Ht Heq. apply (f_equal String.length) in Heq.
  rewrite string_length_app in Heq. destruct t; [done|]. simpl in Heq. lia.
Qed.

(** X5. Encrypting one file with [-r] and then decrypting its artifact
    with [-r] and the same passphrase puts the file system back exactly as
    it was: after the first run the file is gone and the artifact is there,
    after the second the artifact is gone and the file is back with its
    content, and no other path has changed. *)
Theorem process_remove_roundtrip `{PyLib} `{PyOs} (file : string)
    (data : list byte) (w : world) (a : string) (rest : list string) :
  scrypt_derives 32 (2 ^ 20) 8 1 -> gcm_seals -> gcm_opens ->
  pickle_inverts_containers -> fspath_of_str -> set_iter_spec ->
  fs w !! file = Some data ->
  fs w !! (file ++ ".enc")%string = None ->
  tty w = a :: a :: rest ->
  exists w1,
    Main.process {| Main.encrypt := Some [file]; Main.decrypt := None;
                    Main.encrypt_dir := None; Main.decrypt_dir := None;
                    Main.remove := true; Main.compress := false |} w
    = (Ok tt, w1)
    /\ fs w1 !! file = None
    /\ is_Some (fs w1 !! (file ++ ".enc")%string)
    /\ forall w2 rest2,
         fs w2 = fs w1 -> tty w2 = a :: rest2 ->
         exists w3,
           Main.process {| Main.encrypt := None;
                           Main.decrypt := Some [(file ++ ".enc")%string];
                           Main.encrypt_dir := None; Main.decrypt_dir := None;
                           Main.remove := true; Main.compress := false |} w2
           = (Ok tt, w3)
           /\ fs w3 = fs w.
Proof.
  intros Hkdf Hseal Hopen Hpickle Hpath Hset Hfile Hnoart Htty.
  assert (Hne : file <> (file ++ ".enc")%string) by (by apply string_app_neq).
  destruct (encrypt_file_single file data w a rest Hkdf Hseal Hopen Hfile Htty)
    as (ct & s & tg & n & w1 & Eenc & Efs & Edec & _).
  cbv zeta in *.
  assert (Hfile1 : fs w1 !! file = Some data).
  { rewrite Efs, lookup_insert_ne by done. exact Hfile. }
  eexists. split; [|split; [|split]].
  - rewrite process_encrypt_only, set_iter_single by done.
    erewrite bind_ok by exact Eenc. cbn [Main.py_when py_for].
    erewrite bind_ok by exact (os_remove_ok _ _ _ Hfile1). reflexivity.
  - wsimpl. apply lookup_delete_eq.
  - wsimpl. rewrite lookup_delete_ne, Efs, lookup_insert_eq by done. eauto.
  - intros w2 rest2 Hfs2 Htty2. wsimpl.
    assert (Hart : fs w2 !! (file ++ ".enc")%string
                   = Some (pickle_dumps
                             (__dict__ {| ciphertext := PyBytes ct;
                                          salt := PyBytes s; tag := PyBytes tg;
                                          nonce := PyBytes n;
                                          filename := PyStr file |}))).
    { by rewrite Hfs2, lookup_delete_ne, Efs, lookup_insert_eq. }
    destruct (decrypt_file_single (file ++ ".enc") file _ data w2 a rest2
                (Hpickle ct s tg n file) (Hpath file) Edec Hart Htty2)
      as (w3 & Edecf & Efs3 & _).
    assert (Hart3 : fs w3 !! (file ++ ".enc")%string
                    = Some (pickle_dumps
                              (__dict__ {| ciphertext := PyBytes ct;
                                           salt := PyBytes s; tag := PyBytes tg;
                                           nonce := PyBytes n;
                                           filename := PyStr file |}))).
    { rewrite Efs3, lookup_insert_ne by done. exact Hart. }
    eexists. split.
    + rewrite process_decrypt_only, set_iter_single by done.
      erewrite bind_ok by exact Edecf. cbn [Main.py_when py_for].
      erewrite bind_ok by exact (os_remove_ok _ _ _ Hart3). reflexivity.
    + wsimpl. rewrite Efs3, Hfs2, Efs. apply map_eq. intros k.
      destruct (decide (k = (file ++ ".enc")%string)) as [->|Hk1].
      { by rewrite lookup_delete_eq, Hnoart. }
      rewrite lookup_delete_ne by done.
      destruct (decide (k = file)) as [->|Hk2].
      { by rewrite lookup_insert_eq, Hfile. }
      rewrite lookup_insert_ne, lookup_delete_ne, lookup_insert_ne by done.
      reflexivity.
Qed.

Lemma process_remove_roundtrip_witness :
  let w := Ref.world0 [("hello.txt", Sample.bytes_of "hi")] 3
             ["correct"; "correct"] in
  exists w1,
    @Main.process Ref.lib RefOs.os
      {| Main.encrypt := Some ["hello.txt"]; Main.decrypt := None;
         Main.encrypt_dir := None; Main.decrypt_dir := None;
         Main.remove := true; Main.compress := false |} w
    = (Ok tt, w1)
    /\ fs w1 !! "hello.txt" = None
    /\ is_Some (fs w1 !! ("hello.txt" ++ ".enc")%string)
    /\ forall w2 rest2,
         fs w2 = fs w1 -> tty w2 = "correct" :: rest2 ->
         exists w3,
           @Main.process Ref.lib RefOs.os
             {| Main.encrypt := None;
                Main.decrypt := Some [("hello.txt" ++ ".enc")%string];
                Main.encrypt_dir := None; Main.decrypt_dir := None;
                Main.remove := true; Main.compress := false |} w2
           = (Ok tt, w3)
           /\ fs w3 = fs w.
Proof.
  apply (@process_remove_roundtrip Ref.lib RefOs.os "hello.txt"
           (Sample.bytes_of "hi") _ "correct" []).
  - apply ref_scrypt_derives.
  - apply ref_gcm_seals.
  - apply ref_gcm_opens.
  - apply ref_pickle_inverts_containers.
  - apply ref_fspath_of_str.
  - apply ref_set_iter_spec.
  - reflexivity.
  - reflexivity.
  - reflexivity.
Defined.

Lemma encrypt_file_fs `{PyLib} (self : Cryptfile.Cryptfile) (w w' : world)
    (r : result unit) (p : string) :
  Cryptfile.encrypt_file self w = (r, w') ->
  (forall f, In f (Cryptfile.files self) -> p <> (f ++ ".enc")%string) ->
  fs w' !! p = fs w !! p.
Proof.
  unfold Cryptfile.encrypt_file, py_bind. intros E Hp.
  destruct (Security.getpass false w) as [[ph|e] w0] eqn:Epass;
    apply getpass_frame in Epass as (Efs & _).
  - rewrite (py_for_encrypt_fs _ _ _ _ _ _ E Hp). by rewrite Efs.
  - injection E as _ <-. by rewrite Efs.
Qed.

(** X6. With [-r], the originals are deleted only after the whole batch
    has been encrypted: when the batch raises, [process] raises the same
    exception in the world the batch left, no [os.remove] has run, and
    every path that is not an artifact name still holds what it held. *)
Theorem process_failed_batch_removes_nothing `{PyLib} `{PyOs} (args : Main.Args)
    (files : list string) (e : exn) (w w1 : world) :
  Main.encrypt args = Some files ->
  Cryptfile.encrypt_file
    {| Cryptfile.files := set_iter files; Cryptfile.directories := [] |} w
  = (Raise e, w1) ->
  Main.process args w = (Raise e, w1)
  /\ forall p,
       (forall f, In f (set_iter files) -> p <> (f ++ ".enc")%string) ->
       fs w1 !! p = fs w !! p.
Proof.
  intros Hargs Ebatch. split.
  - unfold Main.process. rewrite Hargs.
    apply bind_raise. by apply bind_raise.
  - intros p Hp. by apply (encrypt_file_fs _ _ _ _ _ Ebatch).
Qed.

Lemma process_failed_batch_removes_nothing_witness :
  let args := {| Main.encrypt := Some ["b.txt"; "a.txt"; "c.txt"];
                 Main.decrypt := None; Main.encrypt_dir := None;
                 Main.decrypt_dir := None; Main.remove := true;
                 Main.compress := false |} in
  let w1 := snd (@Cryptfile.encrypt_file Ref.lib
                   (Sample.batch ["b.txt"; "a.txt"; "c.txt"]) Sample.batch_world) in
  @Main.process Ref.lib RefOs.os args Sample.batch_world
  = (Raise (FileNotFoundError "a.txt"), w1)
  /\ forall p,
       (forall f, In f (@set_iter RefOs.os ["b.txt"; "a.txt"; "c.txt"]) ->
                  p <> (f ++ ".enc")%string) ->
       fs w1 !! p = fs Sample.batch_world !! p.
Proof.
  intros args w1.
  apply (@process_failed_batch_removes_nothing Ref.lib RefOs.os args
           ["b.txt"; "a.txt"; "c.txt"]).
  - reflexivity.
  - vm_compute. reflexivity.
Defined.

Lemma encrypt_file_body_keeps `{PyLib} (ph : list byte) (file p : string)
    (w w' : world) (r : result unit) :
  Cryptfile.encrypt_file_body ph file w = (r, w') ->
  is_Some (fs w !! p) -> is_Some (fs w' !! p).
Proof.
  intros Ebody Hp.
  destruct (decide (p = (file ++ ".enc")%string)) as [->|Hne].
  - revert Ebody. unfold Cryptfile.encrypt_file_body.
    unfold py_bind at 1. rewrite open_file_raw_eq.
    destruct (fs w !! file) as [data|]; [|by intros [= _ <-]].
    unfold py_bind at 1. unfold print at 1. unfold py_bind at 1.
    destruct (Security.encrypt _ _ _) as [[cc|e] w1] eqn:Eenc;
      apply encrypt_frame in Eenc as [Efs _]; wsimpl.
    + unfold py_bind, Utils.save_cc, write_file, print.
      intros [= _ <-]. wsimpl. rewrite lookup_insert_eq. eauto.
    + intros [= _ <-]. by rewrite Efs.
  - by rewrite (encrypt_file_body_fs _ _ _ _ _ _ Ebody Hne).
Qed.

Lemma encrypt_file_body_reads `{PyLib} (ph : list byte) (file : string)
    (w w' : world) :
  Cryptfile.encrypt_file_body ph file w = (Ok tt, w') ->
  is_Some (fs w !! file).
Proof.
  unfold Cryptfile.encrypt_file_body.
  unfold py_bind at 1. rewrite open_file_raw_eq.
  destruct (fs w !! file) as [data|]; [eauto|discriminate].
Qed.

Lemma py_for_encrypt_present `{PyLib} (ph : list byte) (names : list string)
    (w w' : world) :
  py_for names (Cryptfile.encrypt_file_body ph) w = (Ok tt, w') ->
  (forall p, is_Some (fs w !! p) -> is_Some (fs w' !! p))
  /\ forall f, In f names -> is_Some (fs w' !! f).
Proof.
  revert w. induction names as [|g names IH]; intros w; simpl.
  - intros [= <-]. by split.
  - unfold py_bind.
    destruct (Cryptfile.encrypt_file_body ph g w) as [[[]|e] w1] eqn:Eg;
      [|discriminate].
    intros E. destruct (IH _ E) as [Hkeep Hin]. split.
    + intros p Hp. apply Hkeep. by apply (encrypt_file_body_keeps _ _ _ _ _ _ Eg).
    + intros f [<-|Hf]; [|by apply Hin].
      apply Hkeep. apply (encrypt_file_body_keeps _ _ _ _ _ _ Eg).
      by apply (encrypt_file_body_reads _ _ _ _ Eg).
Qed.

(** Removing distinct files that exist. *)
Lemma remove_all_ok (names : list string) (w : world) :
  NoDup names ->
  (forall f, In f names -> is_Some (fs w !! f)) ->
  exists w',
    py_for names os_remove w = (Ok tt, w')
    /\ (forall p, In p names -> fs w' !! p = None)
    /\ (forall p, ~ In p names -> fs w' !! p = fs w !! p).
Proof.
  intros Hnodup. revert w.
  induction Hnodup as [|x names Hx Hnodup IH]; intros w Hall.
  - exists w. by repeat split.
  - destruct (Hall x) as [c Hc]; [by left|].
    destruct (IH (set_fs w (delete x (fs w)))) as (w' & Efor & Hgone & Hkept).
    { intros f Hf. wsimpl. rewrite lookup_delete_ne.
      - apply Hall. by right.
      - intros <-. by apply Hx, list_elem_of_In. }
    exists w'. split; [|split].
    + simpl. erewrite bind_ok by exact (os_remove_ok _ _ _ Hc). exact Efor.
    + intros p [<-|Hp]; [|by apply Hgone].
      rewrite Hkept by (intros Hin; by apply Hx, list_elem_of_In).
      wsimpl. apply lookup_delete_eq.
    + intros p Hp. rewrite Hkept by (intros Hin; apply Hp; by right).
      wsimpl. apply lookup_delete_ne. intros <-. apply Hp. by left.
Qed.

(** X7. A name given twice with [-r] makes the run fail after the batch
    has succeeded: the set of files is encrypted, the names are removed in
    the order of the command line, and the second removal of the repeated
    name raises [FileNotFoundError]; the names before it are gone and the
    artifacts of the batch remain. *)
Theorem process_repeated_name_fails_on_removal `{PyLib} `{PyOs}
    (pre mid post : list string) (x : string) (c : bool) (w w1 : world) :
  set_iter_spec ->
  NoDup (pre ++ x :: mid)%list ->
  Cryptfile.encrypt_file
    {| Cryptfile.files := set_iter (pre ++ x :: mid ++ x :: post)%list;
       Cryptfile.directories := [] |} w
  = (Ok tt, w1) ->
  exists w2,
    Main.process {| Main.encrypt := Some (pre ++ x :: mid ++ x :: post)%list;
                    Main.decrypt := None; Main.encrypt_dir := None;
                    Main.decrypt_dir := None; Main.remove := true;
                    Main.compress := c |} w
    = (Raise (FileNotFoundError x), w2)
    /\ (forall p, In p (pre ++ x :: mid)%list -> fs w2 !! p = None)
    /\ (forall p, ~ In p (pre ++ x :: mid)%list -> fs w2 !! p = fs w1 !! p).
Proof.
  intros Hset Hnodup Ebatch.
  assert (Hall : forall f, In f (pre ++ x :: mid)%list -> is_Some (fs w1 !! f)).
  { intros f Hf. revert Ebatch. unfold Cryptfile.encrypt_file, py_bind.
    destruct (Security.getpass false w) as [[ph|e] w0]; [|discriminate].
    cbn [Cryptfile.files]. intros Efor.
    apply py_for_encrypt_present in Efor as [_ Hin]. apply Hin.
    apply (proj2 (Hset _)). rewrite !in_app_iff in *. simpl.
    rewrite in_app_iff. simpl in Hf. tauto. }
  destruct (remove_all_ok _ w1 Hnodup Hall) as (w2 & Erem & Hgone & Hkept).
  exists w2. split; [|by split].
  rewrite process_encrypt_only. erewrite bind_ok by exact Ebatch.
  cbn [Main.py_when].
  replace (pre ++ x :: mid ++ x :: post)%list
    with ((pre ++ x :: mid) ++ x :: post)%list
    by (by rewrite <- app_assoc).
  apply py_for_abort with (w1 := w2); [exact Erem|].
  apply os_remove_missing. apply Hgone. rewrite in_app_iff. right. by left.
Qed.

Lemma process_repeated_name_fails_on_removal_witness :
  let w1 := snd (@Cryptfile.encrypt_file Ref.lib
                   {| Cryptfile.files := @set_iter RefOs.os ["b.txt"; "b.txt"];
                      Cryptfile.directories := [] |} Sample.batch_world) in
  exists w2,
    @Main.process Ref.lib RefOs.os
      {| Main.encrypt := Some ["b.txt"; "b.txt"];
         Main.decrypt := None; Main.encrypt_dir := None;
         Main.decrypt_dir := None; Main.remove := true;
         Main.compress := false |} Sample.batch_world
    = (Raise (FileNotFoundError "b.txt"), w2)
    /\ (forall p, In p ["b.txt"] -> fs w2 !! p = None)
    /\ (forall p, ~ In p ["b.txt"] -> fs w2 !! p = fs w1 !! p).
Proof.
  intros w1.
  apply (@process_repeated_name_fails_on_removal Ref.lib RefOs.os
           [] [] [] "b.txt" false Sample.batch_world w1).
  - apply ref_set_iter_spec.
  - apply NoDup_singleton.
  - vm_compute. reflexivity.
Defined.

(** ** obsfile/security.py, continued *)

(** X8. The earlier pair is a round trip as well: for every data and key
    that scrypt accepts, [decrypt] returns the data from the dict that
    [encrypt] built, whatever random bytes were drawn. *)
Theorem obsfile_encrypt_decrypt_roundtrip `{PyLib} (data : list byte)
    (key : pyval) (w : world) :
  (forall salt : string,
      exists k, scrypt_kdf key (PyStr salt) 32 (2 ^ 14) 8 1 = Ok k
                /\ length k = 32%nat) ->
  gcm_seals -> gcm_opens ->
  exists configs w',
    obsfile.encrypt data key w = (Ok configs, w')
    /\ forall w2, fst (obsfile.decrypt configs key w2) = Ok data.
Proof.
  intros Hkdf Hseal Hopen.
  destruct (Hkdf (py_str (PyBytes (map (tape w) (seq (pos w) 32)))))
    as (k & Ek & Lk).
  destruct (Hseal k (map (tape w) (seq (pos w + 32) 16)) data)
    as (ct & tg & Eseal); [exact Lk | apply random_bytes_length |].
  pose proof (Hopen _ _ _ _ _ Eseal) as Eopen.
  set (s := PyStr (py_str (PyBytes (map (tape w) (seq (pos w) 32))))) in *.
  set (n := PyBytes (map (tape w) (seq (pos w + 32) 16))) in *.
  exists (PyDict [ (PyStr "salt", s); (PyStr "ciphertext", PyBytes ct);
                   (PyStr "nonce", n); (PyStr "tag", PyBytes tg) ]).
  eexists. split.
  - unfold obsfile.encrypt, AES_new, get_random_bytes, scrypt,
      encrypt_and_digest, py_bind, py_lift, py_ret. wsimpl.
    fold s. rewrite Ek. wsimpl. fold n. rewrite Eseal. reflexivity.
  - intros w2.
    by rewrite (obsfile_decrypt_result _ key s (PyBytes ct) n (PyBytes tg) k w2).
Qed.

Lemma obsfile_encrypt_decrypt_roundtrip_witness :
  exists configs w',
    @obsfile.encrypt Ref.lib (Sample.bytes_of "hi") (PyStr "k")
      (Ref.world0 [] 3 []) = (Ok configs, w')
    /\ forall w2,
         fst (@obsfile.decrypt Ref.lib configs (PyStr "k") w2)
         = Ok (Sample.bytes_of "hi").
Proof.
  apply (@obsfile_encrypt_decrypt_roundtrip Ref.lib).
  - intros salt. apply (ref_scrypt_derives 32 (2 ^ 14) 8 1 "k" salt).
  - apply ref_gcm_seals.
  - apply ref_gcm_opens.
Defined.

(** X9. The earlier [decrypt] reads the four entries in the order salt,
    ciphertext, nonce, tag: the first one that the dict lacks is reported
    as [KeyError], after the 32 random bytes were drawn and before any key
    is derived; a value that is not a dict is a [TypeError]. *)
Theorem obsfile_decrypt_missing_entry `{PyLib} (items : list (pyval * pyval))
    (key : pyval) (w : world) (name : string) :
  List.find (fun k => match dict_get k items with None => true | Some _ => false end)
    ["salt"; "ciphertext"; "nonce"; "tag"] = Some name ->
  obsfile.decrypt (PyDict items) key w
  = (Raise (KeyError name), set_pos w (pos w + 32))
  /\ forall d, (forall l, d <> PyDict l) ->
       obsfile.decrypt d key w = (Raise TypeError, set_pos w (pos w + 32)).
Proof.
  intros Hfind. split.
  - revert Hfind.
    unfold obsfile.decrypt, AES_new, get_random_bytes, scrypt,
      decrypt_and_verify, py_bind, py_lift, py_ret, getitem.
    cbn [List.find].
    destruct (dict_get "salt" items); [|by intros [= <-]].
    destruct (dict_get "ciphertext" items); [|by intros [= <-]].
    destruct (dict_get "nonce" items); [|by intros [= <-]].
    destruct (dict_get "tag" items); [discriminate|by intros [= <-]].
  - intros d Hd.
    unfold obsfile.decrypt, get_random_bytes, py_bind, py_lift, py_ret.
    destruct d as [| | | |l]; try reflexivity. by destruct (Hd l).
Qed.

Lemma obsfile_decrypt_missing_entry_witness :
  let items := [ (PyStr "salt", PyStr "s"); (PyStr "ciphertext", PyBytes []);
                 (PyStr "tag", PyBytes []) ] in
  let w := Ref.world0 [] 3 [] in
  @obsfile.decrypt Ref.lib (PyDict items) (PyStr "k") w
  = (Raise (KeyError "nonce"), set_pos w (pos w + 32))
  /\ forall d, (forall l, d <> PyDict l) ->
       @obsfile.decrypt Ref.lib d (PyStr "k") w
       = (Raise TypeError, set_pos w (pos w + 32)).
Proof.
  intros items w.
  apply (@obsfile_decrypt_missing_entry Ref.lib items (PyStr "k") w "nonce").
  reflexivity.
Defined.

(** ** Resources of a batch *)

Lemma getpass_calls `{PyLib} (no_check : bool) (w w' : world)
    (r : result (list byte)) :
  Security.getpass no_check w = (r, w') ->
  scrypt_calls (log w') = scrypt_calls (log w).
Proof.
  unfold Security.getpass, getpass_getpass, print, sys_exit, py_raise, py_bind,
    py_ret.
  destruct (tty w) as [|a [|b rest]], no_check; wsimpl;
    try destruct (String.eqb _ _); intros [= _ <-]; calls_simpl; lia.
Qed.

Lemma body_resources `{PyLib} (d : Cryptfile.direction) (ph : list byte)
    (file : string) (w w' : world) :
  gcm_opens_checked ->
  Cryptfile.body d ph file w = (Ok tt, w') ->
  match d with
  | Cryptfile.Encrypting => pos w' = (pos w + 48)%nat
  | Cryptfile.Decrypting =>
      forall cc wA, Utils.open_file file true w = (Ok cc, wA) ->
                    pos w' = (pos w + 16
                              + match nonce cc with PyNone => 16 | _ => 0 end)%nat
  end
  /\ (pos w + match d with
              | Cryptfile.Encrypting => 48
              | Cryptfile.Decrypting => 16
              end <= pos w'
      <= pos w + match d with
                 | Cryptfile.Encrypting => 48
                 | Cryptfile.Decrypting => 32
                 end)%nat
  /\ scrypt_calls (log w') = (scrypt_calls (log w) + 1)%nat.
Proof.
  intros Hchecked. destruct d; cbn [Cryptfile.body].
  - unfold Cryptfile.encrypt_file_body.
    unfold py_bind at 1. rewrite open_file_raw_eq.
    destruct (fs w !! file) as [data|]; [|discriminate].
    unfold py_bind at 1. unfold print at 1. unfold py_bind at 1.
    destruct (Security.encrypt _ _ _) as [[cc|e] w1] eqn:Eenc; [|discriminate].
    apply encrypt_inv in Eenc as (key & ct & tg & _ & _ & -> & ->).
    unfold py_bind, Utils.save_cc, write_file, print.
    intros [= <-]. calls_simpl. lia.
  - unfold Cryptfile.decrypt_file_body.
    unfold py_bind at 1. rewrite open_file_pickled_eq.
    destruct (match fs w !! file with Some _ => _ | None => _ end) as [cc|e];
      [|discriminate].
    unfold py_bind at 1. unfold print at 1. unfold py_bind at 1.
    destruct (Security.decrypt _ _ _) as [[data|e] w1] eqn:Edec; [|discriminate].
    destruct (scrypt_kdf (PyStr (py_str (PyBytes ph))) (PyStr (py_str (salt cc)))
                32 (2 ^ 20) 8 1) as [key|e] eqn:Ekey.
    2:{ rewrite (decrypt_kdf_raise _ _ _ _ Ekey) in Edec. discriminate. }
    rewrite (decrypt_eq _ _ _ _ Ekey) in Edec. injection Edec as Eopen <-.
    apply Hchecked in Eopen. unfold opening_draws. wsimpl. rewrite Eopen.
    unfold py_bind, Utils.save_file, py_lift, write_file, print.
    destruct (os_fspath (filename cc)); [|discriminate].
    intros [= <-]. calls_simpl.
    split; [|split; [|lia]].
    + intros cc' wA [= <- _]. lia.
    + destruct (nonce cc); lia.
Qed.

(** X10. A batch that succeeds derives one key per file: the passphrase is
    asked once for the batch, but no salt, nonce or key is shared between
    two files.  Encrypting draws 48 random bytes per file (32 of salt, 16 of
    nonce).  Decrypting draws from the random source as well: 16 bytes per
    file for the comparison of the tags, and 16 more for a container that
    stores [None] as its nonce, so between 16 and 32 per file. *)
Theorem batch_resources `{PyLib} (d : Cryptfile.direction)
    (self : Cryptfile.Cryptfile) (w w' : world) :
  gcm_opens_checked ->
  Cryptfile.run d self w = (Ok tt, w') ->
  let n := length (Cryptfile.files self) in
  scrypt_calls (log w') = (scrypt_calls (log w) + n)%nat
  /\ match d with
     | Cryptfile.Encrypting => pos w' = (pos w + 48 * n)%nat
     | Cryptfile.Decrypting => (pos w + 16 * n <= pos w' <= pos w + 32 * n)%nat
     end
  /\ forall ph file cc w0 wA w1,
       Utils.open_file file true w0 = (Ok cc, wA) ->
       Cryptfile.decrypt_file_body ph file w0 = (Ok tt, w1) ->
       pos w1 = (pos w0 + 16 + match nonce cc with PyNone => 16 | _ => 0 end)%nat.
Proof.
  intros Hchecked Erun n. subst n. split; [|split].
  3:{ intros ph file cc w0 wA w1 Eopen Ebody.
      apply (body_resources Cryptfile.Decrypting) in Ebody as (Hpos & _);
        [|exact Hchecked].
      by apply (Hpos cc wA). }
  all: revert Erun; rewrite run_eq; unfold py_bind at 1.
  all: destruct (Security.getpass _ w) as [[ph|e] w0] eqn:Epass; [|discriminate].
  all: pose proof (getpass_calls _ _ _ _ Epass) as Ecalls.
  all: apply getpass_frame in Epass as (_ & Epos & _).
  all: rewrite <- ?Epos, <- ?Ecalls; clear Epos Ecalls.
  all: generalize (Cryptfile.files self); intros names; revert w0.
  all: induction names as [|f names IH]; intros w0; simpl.
  1,3: intros [= <-]; destruct d; lia.
  all: unfold py_bind.
  all: destruct (Cryptfile.body d ph f w0) as [[[]|e] w1] eqn:Ef; [|discriminate].
  all: intros E; apply IH in E.
  all: apply body_resources in Ef as (_ & Epos1 & Ecalls1); [|exact Hchecked].
  all: destruct d; lia.
Qed.

Lemma batch_resources_witness :
  let self := Sample.batch ["b.txt"; "c.txt"] in
  let w := Sample.batch_world in
  let w' := snd (@Cryptfile.run Ref.lib Cryptfile.Encrypting self w) in
  let arts := Sample.batch ["b.txt.enc"; "c.txt.enc"] in
  let v := set_tty w' ["correct"] in
  let v' := snd (@Cryptfile.run Ref.lib Cryptfile.Decrypting arts v) in
  (scrypt_calls (log w') = (scrypt_calls (log w) + 2)%nat
   /\ pos w' = (pos w + 48 * 2)%nat)
  /\ (scrypt_calls (log v') = (scrypt_calls (log v) + 2)%nat
      /\ (pos v + 16 * 2 <= pos v' <= pos v + 32 * 2)%nat).
Proof.
  intros self w w' arts v v'. split.
  - destruct (@batch_resources Ref.lib Cryptfile.Encrypting self w w'
                ref_gcm_opens_checked) as (Hcalls & Hpos & _);
      [vm_compute; reflexivity|]. by split.
  - destruct (@batch_resources Ref.lib Cryptfile.Decrypting arts v v'
                ref_gcm_opens_checked) as (Hcalls & Hpos & _);
      [vm_compute; reflexivity|]. by split.
Defined.

(** ** Plain files and the stored name *)

(** X11. What [save_file] wrote, [open_file] without unpickling reads
    back, and no other path is touched; when the name is not one [open]
    accepts, that exception is raised and nothing is written or opened. *)
Theorem save_file_open_file_roundtrip `{PyLib} (data : list byte) (name : pyval)
    (w : world) :
  match os_fspath name with
  | Ok path =>
      exists w1,
        Utils.save_file data name w = (Ok tt, w1)
        /\ (forall w2, fs w2 !! path = fs w1 !! path ->
                       fst (Utils.open_file path false w2) = Ok data)
        /\ (forall p, p <> path -> fs w1 !! p = fs w !! p)
  | Raise e => Utils.save_file data name w = (Raise e, w)
  end.
Proof.
  unfold Utils.save_file, py_bind, py_lift, write_file.
  destruct (os_fspath name) as [path|e]; [|reflexivity].
  eexists. split; [reflexivity|]. wsimpl. split.
  - intros w2 Hw2. rewrite lookup_insert_eq in Hw2.
    by rewrite (open_file_raw_ok _ _ _ Hw2).
  - intros p Hp. by apply lookup_insert_ne.
Qed.

Lemma decrypt_ignores_filename `{PyLib} (self : Security.Security)
    (cc : CipherConfig) (name : pyval) (w : world) :
  Security.decrypt self (set_filename cc name) w = Security.decrypt self cc w.
Proof. reflexivity. Qed.

(** X12. The stored file name is not covered by the authentication tag.
    If a container decrypts under a passphrase hash, the same container
    with any other path [p] in its [filename] field decrypts as well, and
    the loop body of [decrypt_file] writes the plaintext to [p], whatever
    the artifact is called. *)
Theorem stored_filename_decides_output `{PyLib} (ph : list byte)
    (cc : CipherConfig) (data : list byte) (art p : string) (w : world) :
  (forall w2, exists w3,
      Security.decrypt (Security.__init__ ph) cc w2 = (Ok data, w3)) ->
  pickle_inverts (__dict__ (set_filename cc (PyStr p))) ->
  os_fspath (PyStr p) = Ok p ->
  fs w !! art = Some (pickle_dumps (__dict__ (set_filename cc (PyStr p)))) ->
  exists w',
    Cryptfile.decrypt_file_body ph art w = (Ok tt, w')
    /\ fs w' = <[p := data]> (fs w).
Proof.
  intros Edec Hp Hpath Hart. unfold pickle_inverts in Hp.
  assert (Eopen : Utils.open_file art true w
                  = (Ok (set_filename cc (PyStr p)), emit w (EvOpen art "rb"))).
  { rewrite open_file_pickled_eq. rewrite Hart.
    by rewrite Hp, from_kwargs_dict. }
  destruct (Edec (emit (emit w (EvOpen art "rb"))
                    (EvPrint (LF ++ "Decrypting [ " ++ art ++ " ]" ++ CR))))
    as [w3 Edec3].
  rewrite <- (decrypt_ignores_filename _ cc (PyStr p)) in Edec3.
  destruct (decrypt_file_body_writes ph art p _ data w _ w3 Eopen Edec3 Hpath)
    as (w4 & Ebody & Efs & _).
  by exists w4.
Qed.

Lemma stored_filename_decides_output_witness :
  let w := Ref.world0
             [ ("x.enc",
                Ref.ref_dumps (__dict__ (set_filename Sample.container
                                           (PyStr "elsewhere")))) ] 0 [] in
  exists w',
    @Cryptfile.decrypt_file_body Ref.lib Sample.correct "x.enc" w = (Ok tt, w')
    /\ fs w' = <["elsewhere" := Sample.bytes_of "hi"]> (fs w).
Proof.
  intros w.
  apply (@stored_filename_decides_output Ref.lib Sample.correct Sample.container
           (Sample.bytes_of "hi") "x.enc" "elsewhere" w).
  - intros w2. eexists. vm_compute. reflexivity.
  - vm_compute. reflexivity.
  - reflexivity.
  - vm_compute. reflexivity.
Defined.

(** ** Directory mode: names *)

Lemma string_app_assoc (a b c : string) :
  ((a ++ b) ++ c)%string = (a ++ (b ++ c))%string.
Proof.
  induction a as [|x a IH]; [done|].
  change (String x ((a ++ b) ++ c) = String x (a ++ (b ++ c))). by rewrite IH.
Qed.

Lemma has_slash_app_slash (d n : string) : has_slash (d ++ "/" ++ n) = true.
Proof.
  induction d as [|c d IH]; [done|].
  change (Ascii.eqb c "/" || has_slash (d ++ "/" ++ n) = true).
  rewrite IH. apply orb_true_r.
Qed.

Lemma basename_no_slash (p : string) : has_slash p = false -> basename p = p.
Proof.
  destruct p as [|c p]; [done|]. simpl.
  intros [Hc Hp]%orb_false_iff. by rewrite Hp, Hc.
Qed.

Lemma basename_app_slash (d n : string) :
  has_slash n = false -> basename (d ++ "/" ++ n) = n.
Proof.
  intros Hn. induction d as [|c d IH].
  - change (basename (String "/" n) = n). simpl. by rewrite Hn.
  - change (basename (String c (d ++ "/" ++ n)) = n). simpl.
    by rewrite has_slash_app_slash.
Qed.

Lemma bind_ret {A} (m : py A) (w : world) : py_bind m py_ret w = m w.
Proof. unfold py_bind, py_ret. by destruct (m w) as [[a|e] w']. Qed.

Lemma archive_dir_eq `{PyOs} (directory : string) (compress : bool) (w : world) :
  Utils.archive_dir directory compress w
  = make_archive (basename directory) (if compress then "zip" else "tar")
      directory w.
Proof.
  unfold Utils.archive_dir. destruct compress; apply bind_ret.
Qed.

(** X13. The archive of a directory is named after the last component of
    its path only: the directories [d/n] and [n] are both packed under the
    base name [n], whatever [d] is, and a path with a trailing slash is
    packed under the empty base name. *)
Theorem archive_dir_base_name `{PyOs} (d n : string) (compress : bool)
    (w : world) :
  has_slash n = false ->
  let format := if compress then "zip" else "tar" in
  Utils.archive_dir (d ++ "/" ++ n) compress w
  = make_archive n format (d ++ "/" ++ n) w
  /\ Utils.archive_dir n compress w = make_archive n format n w
  /\ Utils.archive_dir (d ++ "/") compress w
     = make_archive "" format (d ++ "/") w.
Proof.
  intros Hn format. subst format. rewrite !archive_dir_eq.
  rewrite (basename_app_slash d n Hn), (basename_no_slash n Hn).
  change (d ++ "/")%string with (d ++ "/" ++ "")%string.
  by rewrite (basename_app_slash d "" eq_refl).
Qed.

Lemma archive_dir_base_name_witness :
  let w := Ref.world0 [] 0 [] in
  @Utils.archive_dir RefOs.os ("home/me" ++ "/" ++ "docs") false w
  = @make_archive RefOs.os "docs" "tar" ("home/me" ++ "/" ++ "docs") w
  /\ @Utils.archive_dir RefOs.os "docs" false w
     = @make_archive RefOs.os "docs" "tar" "docs" w
  /\ @Utils.archive_dir RefOs.os ("home/me" ++ "/") false w
     = @make_archive RefOs.os "" "tar" ("home/me" ++ "/") w.
Proof.
  intros w. apply (@archive_dir_base_name RefOs.os "home/me" "docs" false w).
  reflexivity.
Defined.

Lemma substring_app_within (a t : string) (m k : nat) :
  (m + k <= String.length a)%nat ->
  substring m k (a ++ t) = substring m k a.
Proof.
  revert m k. induction a as [|x a IH]; intros m k Hle.
  - simpl in Hle. assert (m = 0%nat) as -> by lia.
    assert (k = 0%nat) as -> by lia. by destruct t.
  - change (substring m k (String x (a ++ t)) = substring m k (String x a)).
    simpl in Hle. destruct m as [|m], k as [|k]; simpl; try done.
    + rewrite IH; [done|lia].
    + apply IH. lia.
    + apply IH. lia.
Qed.

(** A pattern whose first character does not occur again in it is found
    first at the end of a text that does not contain it. *)
Lemma index_first_occurrence (c : ascii) (q a b : string) :
  (forall k, get k q <> Some c) ->
  index 0 (String c q) a = None ->
  index 0 (String c q) (a ++ String c q ++ b) = Some (String.length a).
Proof.
  intros Hq Ha. set (pat := String c q) in *.
  assert (Hat : substring (String.length a) (String.length pat)
                  (a ++ pat ++ b) = pat).
  { by rewrite substring_app_suffix, substring_app_prefix. }
  destruct (index 0 pat (a ++ pat ++ b)) as [m|] eqn:E.
  2:{ exfalso.
      apply (index_correct3 0 (String.length a) pat _ E); [done|lia|exact Hat]. }
  f_equal.
  destruct (Nat.lt_trichotomy m (String.length a)) as [Hlt|[Heq|Hgt]];
    [exfalso|done|exfalso].
  - pose proof (index_correct1 _ _ _ _ E) as Hm.
    destruct (Nat.le_gt_cases (m + String.length pat) (String.length a))
      as [Hin|Hover].
    + rewrite substring_app_within in Hm by done.
      apply (index_correct3 0 m pat a Ha); [done|lia|exact Hm].
    + assert (Hk : (String.length a - m < String.length pat)%nat) by lia.
      pose proof (substring_correct1 (a ++ pat ++ b) m (String.length pat)
                    (String.length a - m) Hk) as Hget.
      rewrite Hm in Hget.
      replace (String.length a - m + m)%nat with (0 + String.length a)%nat
        in Hget by lia.
      rewrite <- append_correct2 in Hget.
      destruct (String.length a - m)%nat as [|k] eqn:Ek; [lia|].
      simpl in Hget. by apply (Hq k).
  - apply (index_correct2 _ _ _ _ E (String.length a)); [lia|lia|exact Hat].
Qed.

Lemma split_head_first (c : ascii) (q a b : string) :
  (forall k, get k q <> Some c) ->
  index 0 (String c q) a = None ->
  split_head (String c q) (a ++ String c q ++ b) = a.
Proof.
  intros Hq Ha. unfold split_head.
  rewrite (index_first_occurrence c q a b Hq Ha).
  apply substring_app_prefix.
Qed.

Lemma split_head_absent (sep s : string) :
  index 0 sep s = None -> split_head sep s = s.
Proof. intros E. unfold split_head. by rewrite E. Qed.

Lemma no_dot_in_tar (k : nat) : get k "tar" <> Some "."%char.
Proof. by do 4 (destruct k as [|k]; [done|]). Qed.

Lemma no_dot_in_zip (k : nat) : get k "zip" <> Some "."%char.
Proof. by do 4 (destruct k as [|k]; [done|]). Qed.

Lemma no_dot_in_enc (k : nat) : get k "enc" <> Some "."%char.
Proof. by do 4 (destruct k as [|k]; [done|]). Qed.

Lemma contains_tar_suffix (n : string) : contains "tar" (n ++ ".tar") = true.
Proof.
  unfold contains. destruct (index 0 "tar" (n ++ ".tar")) eqn:E; [done|].
  exfalso.
  apply (index_correct3 0 (S (String.length n)) "tar" _ E); [done|lia|].
  replace (S (String.length n)) with (String.length (n ++ ".")).
  - change (n ++ ".tar")%string with (n ++ ("." ++ "tar"))%string.
    rewrite <- string_app_assoc.
    by rewrite substring_app_suffix.
  - rewrite string_length_app. simpl. lia.
Qed.

(** X14. Where an archive is unpacked.  An archive [n.tar] whose base name
    [n] does not contain ".tar" is unpacked into [n], and so is [n.zip]
    when "tar" occurs nowhere in the name and ".zip" not in [n].  But the
    test for the format is ["tar" in archive_file]: a name that contains
    "tar" and not ".tar" (a zip archive called "guitar.zip", say) is
    unpacked into a directory with the name of the archive itself. *)
Theorem unarchive_dir_extract_dir `{PyOs} (n s : string) (w : world) :
  index 0 ".tar" n = None ->
  contains "tar" s = true ->
  index 0 ".tar" s = None ->
  Utils.unarchive_dir (n ++ ".tar") w = unpack_archive (n ++ ".tar") n w
  /\ Utils.unarchive_dir s w = unpack_archive s s w
  /\ (contains "tar" (n ++ ".zip") = false ->
      index 0 ".zip" n = None ->
      Utils.unarchive_dir (n ++ ".zip") w = unpack_archive (n ++ ".zip") n w).
Proof.
  intros Hn Hs1 Hs2. unfold Utils.unarchive_dir. split; [|split].
  - rewrite contains_tar_suffix.
    change (n ++ ".tar")%string with (n ++ ".tar" ++ "")%string at 2.
    by rewrite (split_head_first "." "tar" n "" no_dot_in_tar Hn).
  - by rewrite Hs1, (split_head_absent _ _ Hs2).
  - intros Hz1 Hz2. rewrite Hz1.
    change (n ++ ".zip")%string with (n ++ ".zip" ++ "")%string at 2.
    by rewrite (split_head_first "." "zip" n "" no_dot_in_zip Hz2).
Qed.

Lemma unarchive_dir_extract_dir_witness :
  let w := Ref.world0 [] 0 [] in
  @Utils.unarchive_dir RefOs.os ("docs" ++ ".tar") w
  = @unpack_archive RefOs.os ("docs" ++ ".tar") "docs" w
  /\ @Utils.unarchive_dir RefOs.os "guitar.zip" w
     = @unpack_archive RefOs.os "guitar.zip" "guitar.zip" w
  /\ (contains "tar" ("docs" ++ ".zip") = false ->
      index 0 ".zip" "docs" = None ->
      @Utils.unarchive_dir RefOs.os ("docs" ++ ".zip") w
      = @unpack_archive RefOs.os ("docs" ++ ".zip") "docs" w).
Proof.
  intros w.
  apply (@unarchive_dir_extract_dir RefOs.os "docs" "guitar.zip" w);
    vm_compute; reflexivity.
Defined.

(** ** Directory mode: the two drivers *)

(** X15. For one artifact, [decrypt_dir] first runs [decrypt_file]; then
    it unpacks, and afterwards deletes, the file whose name is the name of
    the artifact up to its first ".enc" (not the name the plaintext was
    written to); when unpacking raises, the exception propagates and
    nothing is deleted. *)
Theorem decrypt_dir_single `{PyLib} `{PyOs} (a b : string) (dirs : list string)
    (w w1 w2 : world) (r : result unit) :
  set_iter_spec ->
  index 0 ".enc" a = None ->
  Cryptfile.decrypt_file
    {| Cryptfile.files := [(a ++ ".enc" ++ b)%string];
       Cryptfile.directories := [] |} w = (Ok tt, w1) ->
  Utils.unarchive_dir a
    (emit w1 (EvPrint ("Extracting archived files "
                       ++ set_repr [(a ++ ".enc" ++ b)%string] ++ LF)))
  = (r, w2) ->
  Cryptfile.decrypt_dir
    {| Cryptfile.files := [(a ++ ".enc" ++ b)%string];
       Cryptfile.directories := dirs |} w
  = match r with
    | Ok _ => os_remove a (emit w2 (EvPrint ("Removing archived files..." ++ LF)))
    | Raise e => (Raise e, w2)
    end.
Proof.
  intros Hset Ha Edec Eun. unfold Cryptfile.decrypt_dir.
  cbn [Cryptfile.files].
  erewrite bind_ok by exact Edec.
  erewrite bind_ok by reflexivity.
  assert (Eall : Cryptfile.unarchive_all
                   {| Cryptfile.files := [(a ++ ".enc" ++ b)%string];
                      Cryptfile.directories := dirs |}
                   (emit w1 (EvPrint ("Extracting archived files "
                                      ++ set_repr [(a ++ ".enc" ++ b)%string]
                                      ++ LF)))
                 = (match r with Ok _ => Ok [a] | Raise e => Raise e end, w2)).
  { unfold Cryptfile.unarchive_all. cbn [Cryptfile.files py_fold].
    rewrite (split_head_first "." "enc" a b no_dot_in_enc Ha).
    unfold py_bind, py_ret. rewrite Eun. by destruct r as [[]|e]. }
  destruct r as [[]|e].
  - erewrite bind_ok by exact Eall.
    erewrite bind_ok by reflexivity.
    rewrite (set_iter_single a Hset). cbn [py_for]. apply bind_ret_unit.
  - by apply bind_raise.
Qed.

Lemma decrypt_dir_single_witness :
  let art := ("docs.tar" ++ ".enc" ++ "")%string in
  let w := Ref.world0
             [ (art, Ref.ref_dumps (__dict__ (set_filename Sample.container
                                                (PyStr "docs.tar")))) ]
             0 ["correct"] in
  let w1 := snd (@Cryptfile.decrypt_file Ref.lib
                   {| Cryptfile.files := [art]; Cryptfile.directories := [] |} w) in
  let w2 := snd (@Utils.unarchive_dir RefOs.os "docs.tar"
                   (emit w1 (EvPrint ("Extracting archived files "
                                      ++ @set_repr RefOs.os [art] ++ LF)))) in
  @Cryptfile.decrypt_dir Ref.lib RefOs.os
    {| Cryptfile.files := [art]; Cryptfile.directories := [] |} w
  = os_remove "docs.tar" (emit w2 (EvPrint ("Removing archived files..." ++ LF))).
Proof.
  intros art w w1 w2.
  apply (@decrypt_dir_single Ref.lib RefOs.os "docs.tar" "" [] w w1 w2 (Ok tt)).
  - apply ref_set_iter_spec.
  - vm_compute. reflexivity.
  - vm_compute. reflexivity.
  - vm_compute. reflexivity.
Defined.

Lemma archive_all_single `{PyOs} (d : string) (c : bool)
    (w w1 : world) (r : result string) :
  make_archive (basename d) (if c then "zip" else "tar") d w = (r, w1) ->
  Cryptfile.archive_all
    {| Cryptfile.files := []; Cryptfile.directories := [d] |} c w
  = (match r with Ok P => Ok [P] | Raise e => Raise e end, w1).
Proof.
  intros Emake. unfold Cryptfile.archive_all. cbn [Cryptfile.directories py_fold].
  unfold py_bind. rewrite archive_dir_eq, Emake. by destruct r.
Qed.

(** X16. [encrypt_dir] packs the directories before the passphrase is
    asked, and deletes the archives only after the batch.  So when the
    batch raises (two different passphrases, say), [encrypt_dir] raises
    the same exception, no archive has been deleted, and every path that
    is not the name of an archive followed by ".enc" holds what the
    packing left there: the unencrypted archives stay on disk. *)
Theorem encrypt_dir_failure_leaves_archives `{PyLib} `{PyOs}
    (self : Cryptfile.Cryptfile) (c : bool) (archives : list string)
    (w w1 w2 : world) (e : exn) :
  Cryptfile.archive_all self c
    (emit w (EvPrint ("Archiving " ++ set_repr (Cryptfile.directories self)
                      ++ LF ++ LF)))
  = (Ok archives, w1) ->
  Cryptfile.encrypt_file
    {| Cryptfile.files := set_iter archives; Cryptfile.directories := [] |} w1
  = (Raise e, w2) ->
  Cryptfile.encrypt_dir self c w = (Raise e, w2)
  /\ forall p,
       (forall q, In q (set_iter archives) -> p <> (q ++ ".enc")%string) ->
       fs w2 !! p = fs w1 !! p.
Proof.
  intros Earch Ebatch. split.
  - unfold Cryptfile.encrypt_dir.
    erewrite bind_ok by reflexivity.
    erewrite bind_ok by exact Earch.
    by apply bind_raise.
  - intros p Hp. by apply (encrypt_file_fs _ _ _ _ _ Ebatch).
Qed.

Lemma encrypt_dir_failure_leaves_archives_witness :
  let self := {| Cryptfile.files := []; Cryptfile.directories := ["docs"] |} in
  let w := Sample.mismatch_world in
  let w1 := snd (@Cryptfile.archive_all RefOs.os self false
                   (emit w (EvPrint ("Archiving "
                                     ++ @set_repr RefOs.os ["docs"] ++ LF ++ LF)))) in
  let w2 := snd (@Cryptfile.encrypt_file Ref.lib
                   {| Cryptfile.files := @set_iter RefOs.os ["docs.tar"];
                      Cryptfile.directories := [] |} w1) in
  @Cryptfile.encrypt_dir Ref.lib RefOs.os self false w = (Raise (SystemExit 1), w2)
  /\ forall p,
       (forall q, In q (@set_iter RefOs.os ["docs.tar"]) ->
                  p <> (q ++ ".enc")%string) ->
       fs w2 !! p = fs w1 !! p.
Proof.
  intros self w w1 w2.
  apply (@encrypt_dir_failure_leaves_archives Ref.lib RefOs.os self false
           ["docs.tar"] w w1 w2 (SystemExit 1)); vm_compute; reflexivity.
Defined.

(** X17. [encrypt_dir] on one directory, when the packing succeeds and
    the passphrase is typed twice: the run succeeds, the intermediate
    archive is deleted, its artifact (archive name followed by ".enc") is
    on disk, and no other path differs from what the packing left. *)
Theorem encrypt_dir_single `{PyLib} `{PyOs} (d P : string) (c : bool)
    (content : list byte) (w w1 : world) (a : string) (rest : list string) :
  scrypt_derives 32 (2 ^ 20) 8 1 -> gcm_seals -> gcm_opens -> set_iter_spec ->
  make_archive (basename d) (if c then "zip" else "tar") d
    (emit w (EvPrint ("Archiving " ++ set_repr [d] ++ LF ++ LF)))
  = (Ok P, w1) ->
  fs w1 !! P = Some content ->
  tty w1 = a :: a :: rest ->
  exists w',
    Cryptfile.encrypt_dir
      {| Cryptfile.files := []; Cryptfile.directories := [d] |} c w
    = (Ok tt, w')
    /\ fs w' !! P = None
    /\ is_Some (fs w' !! (P ++ ".enc")%string)
    /\ forall p, p <> P -> p <> (P ++ ".enc")%string -> fs w' !! p = fs w1 !! p.
Proof.
  intros Hkdf Hseal Hopen Hset Emake HP Htty.
  assert (Hne : P <> (P ++ ".enc")%string) by (by apply string_app_neq).
  destruct (encrypt_file_single P content w1 a rest Hkdf Hseal Hopen HP Htty)
    as (ct & s & tg & n & w2 & Eenc & Efs & _ & _).
  cbv zeta in *.
  assert (HP2 : fs w2 !! P = Some content).
  { rewrite Efs, lookup_insert_ne by done. exact HP. }
  eexists. split; [|split; [|split]].
  - unfold Cryptfile.encrypt_dir. cbn [Cryptfile.directories].
    erewrite bind_ok by reflexivity.
    erewrite bind_ok by (rewrite (archive_all_single _ _ _ _ _ Emake); reflexivity).
    rewrite (set_iter_single P Hset).
    erewrite bind_ok by exact Eenc.
    erewrite bind_ok by reflexivity.
    cbn [py_for]. rewrite bind_ret_unit.
    unfold print. apply os_remove_ok with (content := content). exact HP2.
  - wsimpl. apply lookup_delete_eq.
  - wsimpl. rewrite lookup_delete_ne, Efs, lookup_insert_eq by done. eauto.
  - intros p Hp1 Hp2. wsimpl.
    by rewrite lookup_delete_ne, Efs, lookup_insert_ne.
Qed.

Lemma encrypt_dir_single_witness :
  let w := Ref.world0 [] 3 ["correct"; "correct"] in
  let w1 := snd (@make_archive RefOs.os (basename "docs") "tar" "docs"
                   (emit w (EvPrint ("Archiving " ++ @set_repr RefOs.os ["docs"]
                                     ++ LF ++ LF)))) in
  exists w',
    @Cryptfile.encrypt_dir Ref.lib RefOs.os
      {| Cryptfile.files := []; Cryptfile.directories := ["docs"] |} false w
    = (Ok tt, w')
    /\ fs w' !! "docs.tar" = None
    /\ is_Some (fs w' !! ("docs.tar" ++ ".enc")%string)
    /\ forall p, p <> "docs.tar" -> p <> ("docs.tar" ++ ".enc")%string ->
                 fs w' !! p = fs w1 !! p.
Proof.
  intros w w1.
  apply (@encrypt_dir_single Ref.lib RefOs.os "docs" "docs.tar" false
           (Sample.bytes_of "archive of docs") w w1 "correct" []).
  - apply ref_scrypt_derives.
  - apply ref_gcm_seals.
  - apply ref_gcm_opens.
  - apply ref_set_iter_spec.
  - vm_compute. reflexivity.
  - vm_compute. reflexivity.
  - reflexivity.
Defined.
